(** * A shallow embedding of the agent dispatch core

    Sources embedded here:
    - [src/app/services/agent_service.py]  (class [AgentService] and
      [get_agent_service]);
    - [src/app/routers/agent.py]  (class [AgentInterface], the helper
      [_generate_suggestions] and the [agent_chat] handler).

    Conventions.
    - A Python [str] is the list of its Unicode code points.  Source string
      literals are written as UTF-8 text and decoded by [u].
    - A Python value of static type [Any] is a [pyvalue]; floats are not part
      of that fragment (the code never computes with one).  A statement that
      depends on the kind of a value lists the kinds it covers.
    - [uuid.uuid4()] and [datetime.now()] are external: the service methods
      take the drawn value as an explicit argument, the router draws them
      from the world it runs in.
    - The search, storage and vector-index services are external
      collaborators: records holding the answers of their methods. *)

From Stdlib Require Import ZArith QArith Ascii String DecimalString.
From stdpp Require Import gmap list.

Set Warnings "-register-all,-abstract-large-number".
Local Open Scope Z_scope.

(** ** Strings *)

Abbreviation pystr := (list N).

(** Decoding of a UTF-8 byte sequence into code points. *)
Fixpoint utf8_decode (bs : list N) : pystr :=
  match bs with
  | [] => []
  | b0 :: r0 =>
      if (b0 <? 128)%N then b0 :: utf8_decode r0
      else if (b0 <? 224)%N then
        match r0 with
        | b1 :: r1 => ((b0 - 192) * 64 + (b1 - 128))%N :: utf8_decode r1
        | _ => []
        end
      else if (b0 <? 240)%N then
        match r0 with
        | b1 :: b2 :: r2 =>
            ((b0 - 224) * 4096 + (b1 - 128) * 64 + (b2 - 128))%N
              :: utf8_decode r2
        | _ => []
        end
      else
        match r0 with
        | b1 :: b2 :: b3 :: r3 =>
            ((b0 - 240) * 262144 + (b1 - 128) * 4096
             + (b2 - 128) * 64 + (b3 - 128))%N :: utf8_decode r3
        | _ => []
        end
  end.

(** [u "text"] is the Python string written ["text"] in the source. *)
Definition u (s : string) : pystr :=
  utf8_decode (map N_of_ascii (list_ascii_of_string s)).

(** [p.startswith] at the head of [s]. *)
Fixpoint starts_with (p s : pystr) : bool :=
  match p, s with
  | [], _ => true
  | _ :: _, [] => false
  | x :: p', y :: s' => (x =? y)%N && starts_with p' s'
  end.

(** Python's [p in s] on strings: [p] occurs as a contiguous substring. *)
Fixpoint str_in (p s : pystr) : bool :=
  starts_with p s ||
  match s with
  | [] => false
  | _ :: s' => str_in p s'
  end.

(** [any(kw in s for kw in kws)]. *)
Definition any_in (kws : list pystr) (s : pystr) : bool :=
  existsb (fun kw => str_in kw s) kws.

(** [str(n)] for an [int]. *)
Definition str_of_int (z : Z) : pystr :=
  u (NilZero.string_of_int (Z.to_int z)).

(** ** Values of type [Any] *)

Inductive pyvalue : Type :=
  | PyNone
  | PyBool (b : bool)
  | PyInt (z : Z)
  | PyStr (s : pystr)
  | PyList (l : list pyvalue)
  | PyDict (d : list (pystr * pyvalue)).

(** A [dict] with string keys, in insertion order; lookup takes the first
    binding of the key. *)
Abbreviation pydict := (list (pystr * pyvalue)).

Fixpoint dict_get (d : pydict) (k : pystr) : option pyvalue :=
  match d with
  | [] => None
  | (k', v) :: d' => if decide (k' = k) then Some v else dict_get d' k
  end.

(** [d.get(k, dflt)]. *)
Definition dict_get_default (d : pydict) (k : pystr) (dflt : pyvalue) : pyvalue :=
  default dflt (dict_get d k).

(** [k in d]. *)
Definition dict_mem (d : pydict) (k : pystr) : bool :=
  bool_decide (is_Some (dict_get d k)).

(** [d[k] = v]: overwrite in place or append. *)
Fixpoint dict_set (d : pydict) (k : pystr) (v : pyvalue) : pydict :=
  match d with
  | [] => [(k, v)]
  | (k', v') :: d' =>
      if decide (k' = k) then (k, v) :: d' else (k', v') :: dict_set d' k v
  end.

(** Truth value of an object, as tested by [if x:] and [not x]. *)
Definition truthy (v : pyvalue) : bool :=
  match v with
  | PyNone => false
  | PyBool b => b
  | PyInt z => negb (z =? 0)
  | PyStr s => match s with [] => false | _ => true end
  | PyList l => match l with [] => false | _ => true end
  | PyDict d => match d with [] => false | _ => true end
  end.

(** Exceptions the embedded code can raise. *)
Inductive exn : Type :=
  | ValueError (msg : pystr)
  | RuntimeError (msg : pystr)
  | TypeError
  | AttributeError
  | KeyError (key : pystr)
  | HTTPException (status_code : Z) (detail : pystr).

(** [v == n] against an integer literal: [bool] is a subclass of [int], every
    other type of the fragment compares unequal. *)
Definition py_eq_int (v : pyvalue) (n : Z) : bool :=
  match v with
  | PyInt z => z =? n
  | PyBool b => Z.b2z b =? n
  | _ => false
  end.

(** [v > n] against an integer literal; ordering an [int] with a value that
    is not a number raises [TypeError]. *)
Definition py_gt_int (v : pyvalue) (n : Z) : exn + bool :=
  match v with
  | PyInt z => inr (n <? z)
  | PyBool b => inr (n <? Z.b2z b)
  | _ => inl TypeError
  end.

(** Builtins of the interpreter and its standard library that the code calls
    and whose tables are not part of the repository. *)
Record Builtins : Type := {
  (** [str.lower] *)
  str_lower : pystr -> pystr;
  (** [str(x)] for a list or a dict *)
  repr_container : pyvalue -> pystr;
  (** [datetime.isoformat] *)
  isoformat : Z -> pystr;
}.

(** [f"{v}"]: the [str] of a value. *)
Definition py_format (bi : Builtins) (v : pyvalue) : pystr :=
  match v with
  | PyNone => u "None"
  | PyBool true => u "True"
  | PyBool false => u "False"
  | PyInt z => str_of_int z
  | PyStr s => s
  | PyList _ | PyDict _ => repr_container bi v
  end.

(** ** [uuid] and [datetime] *)

(** The value of [datetime.now()]: microseconds on the local clock. *)
Abbreviation datetime := Z.

Definition hex_digit (d : N) : N :=
  (if d <? 10 then 48 + d else 87 + d)%N.

(** ['%0kx' % n], the [k] low hexadecimal digits of [n]. *)
Fixpoint hex_fixed (k : nat) (n : N) : pystr :=
  match k with
  | O => []
  | S k' => hex_fixed k' (n / 16)%N ++ [hex_digit (n mod 16)%N]
  end.

(** [f'{x[:8]}-{x[8:12]}-{x[12:16]}-{x[16:20]}-{x[20:]}']. *)
Definition uuid_dashed (x : pystr) : pystr :=
  take 8 x ++ u "-" ++ take 4 (drop 8 x) ++ u "-" ++ take 4 (drop 12 x)
    ++ u "-" ++ take 4 (drop 16 x) ++ u "-" ++ drop 20 x.

(** [str(uuid)] for the UUID whose 128-bit integer is [n]: the dashed form of
    [x = '%032x' % n]. *)
Definition uuid_str (n : N) : pystr := uuid_dashed (hex_fixed 32 n).

(** ** [AgentService]  (src/app/services/agent_service.py) *)

(** One record of a session's [history]. *)
Record HistoryEvent : Type := {
  ev_type : pystr;
  ev_original : pystr;
  ev_optimized : pystr;
  ev_timestamp : datetime;
}.

(** The dict stored in [_sessions] for one session. *)
Record Session : Type := {
  user_id : option pystr;
  created_at : datetime;
  history : list HistoryEvent;
  context : pydict;
}.

(** Instance attributes set by [__init__]. *)
Record AgentService : Type := {
  _initialized : bool;
  _sessions : gmap pystr Session;
  _llm_client : option unit;
}.

(** [initialize]: sets the flag; a second call leaves everything as it is. *)
Definition initialize (self : AgentService) : AgentService :=
  if _initialized self then self
  else {| _initialized := true;
          _sessions := _sessions self;
          _llm_client := _llm_client self |}.

Definition is_initialized (self : AgentService) : bool := _initialized self.

(** [create_session]; [uuid4] is the integer of the UUID drawn by
    [uuid.uuid4()] and [now] the value of [datetime.now()]. *)
Definition create_session (self : AgentService) (uid : option pystr)
    (uuid4 : N) (now : datetime) : AgentService * pystr :=
  let session_id := uuid_str uuid4 in
  ({| _initialized := _initialized self;
      _sessions := <[session_id :=
                      {| user_id := uid; created_at := now;
                         history := []; context := [] |}]> (_sessions self);
      _llm_client := _llm_client self |},
   session_id).

Definition get_session (self : AgentService) (session_id : pystr)
    : option Session :=
  _sessions self !! session_id.

(** [session["history"].append(ev)] on the session object stored under
    [session_id]. *)
Definition history_append (ev : HistoryEvent) (s : Session) : Session :=
  {| user_id := user_id s; created_at := created_at s;
     history := history s ++ [ev]; context := context s |}.

(** [optimize_query]; [now] is the value of [datetime.now()], read only when
    the event is recorded.  [if session_id:] fails for [None] and for the
    empty string; a session dict always holds its four keys, so
    [if session:] tests that the lookup found one. *)
Definition optimize_query (self : AgentService) (user_query : pystr)
    (session_id : option pystr) (now : datetime) : AgentService * pystr :=
  let optimized_query := user_query in
  let self' :=
    match session_id with
    | Some ((_ :: _) as sid) =>
        match get_session self sid with
        | Some _ =>
            {| _initialized := _initialized self;
               _sessions :=
                 alter (history_append
                          {| ev_type := u "query_optimize";
                             ev_original := user_query;
                             ev_optimized := optimized_query;
                             ev_timestamp := now |}) sid (_sessions self);
               _llm_client := _llm_client self |}
        | None => self
        end
    | _ => self
    end in
  (self', optimized_query).

(** The dict returned by [detect_intent]; the confidence is the decimal
    literal of the source. *)
Record IntentResult : Type := {
  intent : pystr;
  confidence : Q;
  entities : pydict;
}.

Definition delete_keywords : list pystr :=
  [u "删除"; u "删掉"; u "remove"; u "delete"].
Definition upload_keywords : list pystr :=
  [u "上传"; u "添加"; u "upload"; u "add"].
Definition analyze_keywords : list pystr :=
  [u "分析"; u "识别"; u "这是什么"; u "analyze"].

Definition detect_intent (bi : Builtins) (user_query : pystr) : IntentResult :=
  let query_lower := str_lower bi user_query in
  if any_in delete_keywords query_lower then
    {| intent := u "delete"; confidence := 0.8%Q; entities := [] |}
  else if any_in upload_keywords query_lower then
    {| intent := u "upload"; confidence := 0.8%Q; entities := [] |}
  else if any_in analyze_keywords query_lower then
    {| intent := u "analyze"; confidence := 0.7%Q; entities := [] |}
  else
    {| intent := u "search"; confidence := 0.9%Q; entities := [] |}.

(** [generate_response]. *)
Definition generate_response (bi : Builtins) (intent : pystr)
    (results : pyvalue) (user_query : pystr) : pystr :=
  let fallback := u "已完成您的请求。" in
  if decide (intent = u "search") then
    match results with
    | PyDict d =>
        let total := dict_get_default d (u "total") (PyInt 0) in
        if py_eq_int total 0 then
          u "抱歉，没有找到与「" ++ user_query
            ++ u "」相关的照片。可以尝试换个描述方式。"
        else if py_eq_int total 1 then
          u "找到 1 张符合「" ++ user_query ++ u "」的照片。"
        else
          u "为您找到了 " ++ py_format bi total ++ u " 张与「" ++ user_query
            ++ u "」相关的照片。"
    | _ => fallback
    end
  else if decide (intent = u "delete") then u "删除操作已完成。"
  else if decide (intent = u "upload") then u "图片上传成功。"
  else if decide (intent = u "analyze") then u "图片分析功能即将上线，敬请期待。"
  else fallback.

(** [generate_suggestions]; [total > 10] raises for a total that is not a
    number. *)
Definition generate_suggestions (intent : pystr) (results : pyvalue)
    : exn + list pystr :=
  if decide (intent = u "search") then
    match results with
    | PyDict d =>
        let total := dict_get_default d (u "total") (PyInt 0) in
        if py_eq_int total 0 then
          inr [u "换个描述试试"; u "查看所有照片"; u "按日期筛选"]
        else
          match py_gt_int total 10 with
          | inl e => inl e
          | inr true =>
              inr [u "添加更多细节缩小范围"; u "按标签过滤"; u "查看相似图片"]
          | inr false =>
              inr [u "查找相似的照片"; u "这些照片是什么时候拍的";
                   u "给这些照片打标签"]
          end
    | _ => inr []
    end
  else inr [].

(** ** The singleton  ([__new__], [__init__], [get_agent_service]) *)

Module Singleton.

(** Addresses of objects. *)
Abbreviation ref := nat.

(** The part of the interpreter state the class touches. *)
Record Runtime : Type := {
  (** attributes of every allocated [AgentService] object; [None] for an
      object on which [__init__] has not run yet *)
  heap : gmap ref (option AgentService);
  (** the class attribute [AgentService._instance] *)
  cls_instance : option ref;
  (** the module global [_agent_service] *)
  glob_agent_service : option ref;
}.

(** State at import time. *)
Definition boot : Runtime :=
  {| heap := ∅; cls_instance := None; glob_agent_service := None |}.

Definition AgentService_new (rt : Runtime) : Runtime * ref :=
  match cls_instance rt with
  | None =>
      let r := fresh (dom (heap rt)) in
      ({| heap := <[r := None]> (heap rt);
          cls_instance := Some r;
          glob_agent_service := glob_agent_service rt |}, r)
  | Some r => (rt, r)
  end.

(** [getattr(self, '_initialized', False)]. *)
Definition getattr_initialized (rt : Runtime) (self : ref) : bool :=
  match heap rt !! self with
  | Some (Some o) => _initialized o
  | _ => false
  end.

Definition AgentService_init (rt : Runtime) (self : ref) : Runtime :=
  {| heap := <[self := Some {| _initialized := getattr_initialized rt self;
                               _sessions := ∅;
                               _llm_client := None |}]> (heap rt);
     cls_instance := cls_instance rt;
     glob_agent_service := glob_agent_service rt |}.

(** The call [AgentService()]. *)
Definition construct (rt : Runtime) : Runtime * ref :=
  let '(rt1, self) := AgentService_new rt in
  (AgentService_init rt1 self, self).

Definition get_agent_service (rt : Runtime) : Runtime * ref :=
  match glob_agent_service rt with
  | None =>
      let '(rt1, r) := construct rt in
      ({| heap := heap rt1; cls_instance := cls_instance rt1;
          glob_agent_service := Some r |}, r)
  | Some r => (rt, r)
  end.

(** A method call [obj.m(...)] on the object at [self]; [None] when no
    initialised object lives there. *)
Definition call_method {A} (m : AgentService -> AgentService * A)
    (rt : Runtime) (self : ref) : option (Runtime * A) :=
  match heap rt !! self with
  | Some (Some o) =>
      let '(o', a) := m o in
      Some ({| heap := <[self := Some o']> (heap rt);
               cls_instance := cls_instance rt;
               glob_agent_service := glob_agent_service rt |}, a)
  | _ => None
  end.

(** [obj.get_session(sid)]. *)
Definition obj_get_session (rt : Runtime) (self : ref) (sid : pystr)
    : option Session :=
  match heap rt !! self with
  | Some (Some o) => get_session o sid
  | _ => None
  end.

End Singleton.

(** ** External collaborators  (imported from [..services]) *)

(** Each service is the record of what its methods answer; a method may
    return or raise. *)
Record SearchService : Type := {
  search_is_initialized : bool;
  (** [search(query_text=, query_image_id=, query_image_url=, top_k=,
      filter_tags=)] *)
  search : pyvalue -> pyvalue -> pyvalue -> pyvalue -> pyvalue -> exn + pyvalue;
  (** [search_by_text(query_text=, top_k=, score_threshold=)] *)
  search_by_text : pystr -> Z -> option Q -> exn + list pyvalue;
}.

Record StorageService : Type := {
  storage_is_initialized : bool;
  delete_image : pyvalue -> exn + bool;
}.

Record VectorDBService : Type := {
  vector_is_initialized : bool;
  vector_delete : pyvalue -> exn + bool;
  update_metadata : pyvalue -> pydict -> exn + bool;
}.

(** A method call made on a collaborator, with its arguments. *)
Inductive Call : Type :=
  | CallSearch (query_text query_image_id query_image_url top_k filter_tags : pyvalue)
  | CallSearchByText (query_text : pystr) (top_k : Z) (score_threshold : option Q)
  | CallDeleteImage (image_id : pyvalue)
  | CallVectorDelete (image_id : pyvalue)
  | CallUpdateMetadata (image_id : pyvalue) (update_data : pydict).

(** ** The world a request handler runs in *)

Record World : Type := {
  (** the attributes of the [AgentService] singleton *)
  agent : AgentService;
  (** the calls made on collaborators so far, oldest first *)
  calls : list Call;
  (** the integers of the UUIDs [uuid.uuid4()] returns, and how many were
      drawn *)
  uuid_source : nat -> N;
  uuid_drawn : nat;
  (** the readings of [datetime.now()], and how many were taken *)
  clock : nat -> datetime;
  clock_read : nat;
}.

(** A computation that returns or raises and leaves a world behind; what was
    mutated before an exception stays mutated. *)
Definition M (A : Type) : Type := World -> (exn + A) * World.

#[export] Instance M_ret : MRet M := fun A a w => (inr a, w).
#[export] Instance M_bind : MBind M := fun A B k m w =>
  match m w with
  | (inl e, w') => (inl e, w')
  | (inr a, w') => k a w'
  end.
(** [raise e]. *)
#[export] Instance M_throw : MThrow exn M := fun A e w => (inl e, w).

(** A result computed without touching the world, e.g. [exn + A]. *)
Definition lift {A} (r : exn + A) : M A := fun w => (r, w).

(** Calling a collaborator: the call is recorded, its answer returned. *)
Definition invoke {A} (c : Call) (answer : exn + A) : M A :=
  fun w => (answer,
            {| agent := agent w; calls := calls w ++ [c];
               uuid_source := uuid_source w; uuid_drawn := uuid_drawn w;
               clock := clock w; clock_read := clock_read w |}).

Definition uuid4 : M N :=
  fun w => (inr (uuid_source w (uuid_drawn w)),
            {| agent := agent w; calls := calls w;
               uuid_source := uuid_source w; uuid_drawn := S (uuid_drawn w);
               clock := clock w; clock_read := clock_read w |}).

Definition datetime_now : M datetime :=
  fun w => (inr (clock w (clock_read w)),
            {| agent := agent w; calls := calls w;
               uuid_source := uuid_source w; uuid_drawn := uuid_drawn w;
               clock := clock w; clock_read := S (clock_read w) |}).

(** A method of the singleton, run on its attributes. *)
Definition on_agent {A} (m : AgentService -> AgentService * A) : M A :=
  fun w => let '(a', x) := m (agent w) in
           (inr x,
            {| agent := a'; calls := calls w;
               uuid_source := uuid_source w; uuid_drawn := uuid_drawn w;
               clock := clock w; clock_read := clock_read w |}).

Definition read_agent {A} (f : AgentService -> A) : M A :=
  fun w => (inr (f (agent w)), w).

(** [agent_svc.create_session(user_id)]: draws the UUID, then reads the
    clock. *)
Definition svc_create_session (uid : option pystr) : M pystr :=
  n ← uuid4;
  now ← datetime_now;
  on_agent (fun a => create_session a uid n now).

(** [agent_svc.optimize_query(q, session_id)]: the clock is read only when an
    event is recorded (on the other paths the method ignores its [now]). *)
Definition svc_optimize_query (q : pystr) (session_id : option pystr) : M pystr :=
  match session_id with
  | Some ((_ :: _) as sid) =>
      s ← read_agent (fun a => get_session a sid);
      match s with
      | Some _ =>
          now ← datetime_now;
          on_agent (fun a => optimize_query a q session_id now)
      | None => on_agent (fun a => optimize_query a q session_id 0)
      end
  | _ => on_agent (fun a => optimize_query a q session_id 0)
  end.

(** ** [AgentInterface]  (src/app/routers/agent.py) *)

(** The enumeration [AgentAction] of [..models]. *)
Inductive AgentAction : Type := SEARCH | UPLOAD | DELETE | UPDATE | ANALYZE.

Record AgentInterface : Type := {
  search_service : SearchService;
  storage_service : StorageService;
  vector_db_service : VectorDBService;
}.

(** [v[k]] for a string key: [KeyError] on a dict without the key,
    [TypeError] on every other value of the fragment. *)
Definition subscript (v : pyvalue) (k : pystr) : exn + pyvalue :=
  match v with
  | PyDict d =>
      match dict_get d k with
      | Some x => inr x
      | None => inl (KeyError k)
      end
  | _ => inl TypeError
  end.

Definition _execute_search (bi : Builtins) (self : AgentInterface)
    (params : pydict) : M pydict :=
  if negb (search_is_initialized (search_service self)) then
    mthrow (RuntimeError (u "搜索服务未初始化"))
  else
    let query_text := dict_get_default params (u "query_text") PyNone in
    let query_image_id := dict_get_default params (u "query_image_id") PyNone in
    let query_image_url := dict_get_default params (u "query_image_url") PyNone in
    let top_k := dict_get_default params (u "top_k") (PyInt 10) in
    let filter_tags := dict_get_default params (u "filter_tags") PyNone in
    result ← invoke
      (CallSearch query_text query_image_id query_image_url top_k filter_tags)
      (search (search_service self)
         query_text query_image_id query_image_url top_k filter_tags);
    total ← lift (subscript result (u "total"));
    mret [(u "success", PyBool true);
          (u "action", PyStr (u "search"));
          (u "result", result);
          (u "message",
           PyStr (u "找到 " ++ py_format bi total ++ u " 张相关图片"))].

Definition _execute_upload (self : AgentInterface) (params : pydict)
    : M pydict :=
  mret [(u "success", PyBool false);
        (u "action", PyStr (u "upload"));
        (u "message",
         PyStr (u "URL上传功能暂未实现，请使用/storage/upload接口"))].

Definition _execute_delete (self : AgentInterface) (params : pydict)
    : M pydict :=
  let image_id := dict_get_default params (u "image_id") PyNone in
  if negb (truthy image_id) then mthrow (ValueError (u "必须提供image_id"))
  else
    file_deleted ← invoke (CallDeleteImage image_id)
                     (delete_image (storage_service self) image_id);
    vector_deleted ←
      (if vector_is_initialized (vector_db_service self) then
         invoke (CallVectorDelete image_id)
           (vector_delete (vector_db_service self) image_id)
       else mret false);
    mret [(u "success", PyBool file_deleted);
          (u "action", PyStr (u "delete"));
          (u "result",
           PyDict [(u "file_deleted", PyBool file_deleted);
                   (u "vector_deleted", PyBool vector_deleted)]);
          (u "message",
           PyStr (if file_deleted : bool then u "图片已删除"
                  else u "图片不存在"))].

Definition _execute_update (self : AgentInterface) (params : pydict)
    : M pydict :=
  let image_id := dict_get_default params (u "image_id") PyNone in
  if negb (truthy image_id) then mthrow (ValueError (u "必须提供image_id"))
  else
    let update_data : pydict := [] in
    let update_data :=
      match dict_get params (u "tags") with
      | Some tags => dict_set update_data (u "tags") tags
      | None => update_data
      end in
    let update_data :=
      match dict_get params (u "description") with
      | Some description => dict_set update_data (u "description") description
      | None => update_data
      end in
    if negb (truthy (PyDict update_data)) then
      mret [(u "success", PyBool false);
            (u "action", PyStr (u "update"));
            (u "message", PyStr (u "未提供任何更新内容"))]
    else
      success ← invoke (CallUpdateMetadata image_id update_data)
                  (update_metadata (vector_db_service self)
                     image_id update_data);
      mret [(u "success", PyBool success);
            (u "action", PyStr (u "update"));
            (u "message",
             PyStr (if success : bool then u "更新成功" else u "更新失败"))].

Definition _execute_analyze (self : AgentInterface) (params : pydict)
    : M pydict :=
  mret [(u "success", PyBool false);
        (u "action", PyStr (u "analyze"));
        (u "message",
         PyStr (u "图片分析功能暂未实现，将在后续版本中支持"))].

(** [execute_action]; the final [else] needs an action outside the
    enumeration and has no counterpart here. *)
Definition execute_action (bi : Builtins) (self : AgentInterface)
    (action : AgentAction) (parameters : pydict) : M pydict :=
  match action with
  | SEARCH => _execute_search bi self parameters
  | UPLOAD => _execute_upload self parameters
  | DELETE => _execute_delete self parameters
  | UPDATE => _execute_update self parameters
  | ANALYZE => _execute_analyze self parameters
  end.

(** [_generate_suggestions]: [.get] on a [result] entry that is not a dict
    raises [AttributeError], [total > 10] on a total that is not a number
    raises [TypeError]. *)
Definition _generate_suggestions (action : AgentAction) (result : pydict)
    : exn + list pystr :=
  let success := truthy (dict_get_default result (u "success") PyNone) in
  match action with
  | SEARCH =>
      if success then
        match dict_get_default result (u "result") (PyDict []) with
        | PyDict r =>
            let total := dict_get_default r (u "total") (PyInt 0) in
            if py_eq_int total 0 then
              inr [u "尝试使用不同的关键词搜索";
                   u "检查是否有相关标签可以过滤"]
            else
              match py_gt_int total 10 with
              | inl e => inl e
              | inr true =>
                  inr [u "可以添加更具体的描述来缩小搜索范围";
                       u "尝试使用标签过滤来精确结果"]
              | inr false => inr []
              end
        | _ => inl AttributeError
        end
      else inr []
  | DELETE =>
      if success then inr [u "删除操作已完成，相关数据已清理"] else inr []
  | UPDATE =>
      if success then inr [u "更新成功，可以搜索验证更新效果"] else inr []
  | _ => inr []
  end.

Inductive ResponseStatus : Type := SUCCESS | ERROR.

Module AgentRequest.
Record t : Type := {
  action : AgentAction;
  parameters : pydict;
  context : option pydict;
}.
End AgentRequest.

Module AgentResponse.
Record t : Type := {
  status : ResponseStatus;
  message : pyvalue;
  action : AgentAction;
  result : pyvalue;
  suggestions : list pystr;
}.
End AgentResponse.

(** The [/execute] route. *)
Definition execute_agent_action (bi : Builtins) (agent : AgentInterface)
    (request : AgentRequest.t) : M AgentResponse.t :=
  result ← execute_action bi agent (AgentRequest.action request)
             (AgentRequest.parameters request);
  suggestions ← lift (_generate_suggestions (AgentRequest.action request) result);
  mret {| AgentResponse.status :=
            if truthy (dict_get_default result (u "success") PyNone)
            then SUCCESS else ERROR;
          AgentResponse.message :=
            dict_get_default result (u "message") (PyStr []);
          AgentResponse.action := AgentRequest.action request;
          AgentResponse.result := dict_get_default result (u "result") PyNone;
          AgentResponse.suggestions := suggestions |}.

(** ** The chat route *)

Module ChatMessage.
Record t : Type := {
  query : pystr;
  session_id : option pystr;
  top_k : Z;
  score_threshold : option Q;
}.
End ChatMessage.

Module ChatResponse.
Record t : Type := {
  session_id : pystr;
  answer : pystr;
  intent : pystr;
  optimized_query : pystr;
  results : option pydict;
  suggestions : list pystr;
  timestamp : pystr;
}.
End ChatResponse.

(** Step 3 of [agent_chat]: the tool call chosen by the intent. *)
Definition chat_results (search_svc : SearchService) (intent : pystr)
    (optimized_query : pystr) (message : ChatMessage.t) : M pydict :=
  if decide (intent = u "search") then
    if negb (search_is_initialized search_svc) then
      mthrow (HTTPException 503 (u "搜索服务未初始化"))
    else
      search_results ← invoke
        (CallSearchByText optimized_query (ChatMessage.top_k message)
           (ChatMessage.score_threshold message))
        (search_by_text search_svc optimized_query
           (ChatMessage.top_k message) (ChatMessage.score_threshold message));
      mret [(u "total", PyInt (Z.of_nat (length search_results)));
            (u "images", PyList search_results)]
  else if decide (intent = u "delete") then
    mret [(u "message",
           PyStr (u "删除功能需要指定图片ID，请使用 /agent/execute 接口"))]
  else if decide (intent = u "upload") then
    mret [(u "message", PyStr (u "上传功能请使用 /storage/upload 接口"))]
  else if decide (intent = u "analyze") then
    mret [(u "message", PyStr (u "图片分析功能即将上线"))]
  else
    mret [(u "message", PyStr (u "抱歉，我还不太理解您的意思"))].

Definition agent_chat (bi : Builtins) (search_svc : SearchService)
    (message : ChatMessage.t) : M ChatResponse.t :=
  (* initialise the agent service *)
  ready ← read_agent is_initialized;
  (if negb ready then on_agent (fun a => (initialize a, tt)) else mret tt);;
  (* create or fetch the session *)
  session_id ←
    match ChatMessage.session_id message with
    | Some ((_ :: _) as sid) => mret sid
    | _ => svc_create_session None
    end;
  session ← read_agent (fun a => get_session a session_id);
  session_id ←
    match session with
    | Some _ => mret session_id
    | None => svc_create_session None
    end;
  (* 1. intent *)
  let intent_result := detect_intent bi (ChatMessage.query message) in
  let intent := intent intent_result in
  (* 2. query optimisation *)
  optimized_query ←
    svc_optimize_query (ChatMessage.query message) (Some session_id);
  (* 3. tool call *)
  results ← chat_results search_svc intent optimized_query message;
  (* 4. answer *)
  let answer :=
    generate_response bi intent (PyDict results) (ChatMessage.query message) in
  (* 5. suggestions *)
  suggestions ← lift (generate_suggestions intent (PyDict results));
  (* 6. response *)
  now ← datetime_now;
  mret {| ChatResponse.session_id := session_id;
          ChatResponse.answer := answer;
          ChatResponse.intent := intent;
          ChatResponse.optimized_query := optimized_query;
          ChatResponse.results := Some results;
          ChatResponse.suggestions := suggestions;
          ChatResponse.timestamp := isoformat bi now |}.

(** ** Instances used to run the definitions *)

(** [str.lower] restricted to the ASCII letters; it agrees with the builtin
    on every string whose cased characters are ASCII. *)
Definition ascii_lower (s : pystr) : pystr :=
  map (fun c => if (65 <=? c)%N && (c <=? 90)%N then (c + 32)%N else c) s.

Definition ascii_builtins : Builtins :=
  {| str_lower := ascii_lower;
     repr_container := fun _ => u "<container>";
     isoformat := fun t => str_of_int t |}.

(** A freshly constructed service: the attributes [__init__] sets. *)
Definition fresh_service : AgentService :=
  {| _initialized := false; _sessions := ∅; _llm_client := None |}.

(** A world around a service, with no call made and no draw taken. *)
Definition world_of (a : AgentService) (uuids : nat -> N)
    (times : nat -> datetime) : World :=
  {| agent := a; calls := []; uuid_source := uuids; uuid_drawn := 0;
     clock := times; clock_read := 0 |}.

(** States of the service that the methods can produce, starting from a
    freshly constructed one. *)
Inductive reachable : AgentService -> Prop :=
  | reach_fresh : reachable fresh_service
  | reach_initialize a : reachable a -> reachable (initialize a)
  | reach_create a uid n now :
      reachable a -> reachable (fst (create_session a uid n now))
  | reach_optimize a q sid now :
      reachable a -> reachable (fst (optimize_query a q sid now)).

(** [p] occurs in [s] as a contiguous substring. *)
Definition substring (p s : pystr) : Prop :=
  exists a b, s = a ++ p ++ b.

(** Some keyword of [kws] occurs in [s]. *)
Definition has_keyword (kws : list pystr) (s : pystr) : Prop :=
  exists kw, In kw kws /\ substring kw s.

(** The number of suggestions the specification announces for a search with
    [t >= 0] matches: two for no match, three otherwise. *)
Definition announced_search_suggestions (t : Z) : nat :=
  if t =? 0 then 2%nat else 3%nat.

(** The result dict of a successful direct search with [t] matches. *)
Definition search_action_result (t : Z) : pydict :=
  [(u "success", PyBool true);
   (u "action", PyStr (u "search"));
   (u "result", PyDict [(u "total", PyInt t)])].

(** The event [optimize_query] records. *)
Definition optimize_event (q : pystr) (now : datetime) : HistoryEvent :=
  {| ev_type := u "query_optimize"; ev_original := q;
     ev_optimized := q; ev_timestamp := now |}.









(** [m] returns a value satisfying [P] and calls no collaborator on the way. *)
Definition silently {A} (m : M A) (P : A -> Prop) : Prop :=
  forall w, exists a w', m w = (inr a, w') /\ calls w' = calls w /\ P a.

(** The message the chat route answers a delete intent with. *)
Definition delete_redirect : pystr :=
  u "删除功能需要指定图片ID，请使用 /agent/execute 接口".

(** ** The rest of the router  (src/app/routers/agent.py) *)

(** The value of a member of [AgentAction]. *)
Definition action_name (a : AgentAction) : pystr :=
  match a with
  | SEARCH => u "search"
  | UPLOAD => u "upload"
  | DELETE => u "delete"
  | UPDATE => u "update"
  | ANALYZE => u "analyze"
  end.

(** One entry of a parameter table of [get_available_actions]. *)
Definition param_entry (type description : string)
    (extra : pystr * pyvalue) : pyvalue :=
  PyDict [(u "type", PyStr (u type));
          (u "description", PyStr (u description));
          extra].

Definition get_available_actions : list pydict :=
  [ [(u "action", PyStr (u "search"));
     (u "description",
      PyStr (u "搜索图片，支持文本描述、图片相似度、图文混合搜索"));
     (u "parameters",
      PyDict
        [(u "query_text",
          param_entry "string" "文本查询" (u "required", PyBool false));
         (u "query_image_id",
          param_entry "string" "图片ID查询" (u "required", PyBool false));
         (u "top_k",
          param_entry "integer" "返回数量" (u "default", PyInt 10));
         (u "filter_tags",
          param_entry "array" "标签过滤" (u "required", PyBool false))]);
     (u "examples",
      PyList
        [PyDict [(u "query_text", PyStr (u "日落时的海滩"));
                 (u "top_k", PyInt 5)];
         PyDict [(u "query_image_id", PyStr (u "img_abc123"));
                 (u "top_k", PyInt 10)]])];
    [(u "action", PyStr (u "upload"));
     (u "description", PyStr (u "上传新图片到相册"));
     (u "parameters",
      PyDict
        [(u "image_url",
          param_entry "string" "图片URL" (u "required", PyBool true));
         (u "tags",
          param_entry "array" "标签列表" (u "required", PyBool false));
         (u "description",
          param_entry "string" "图片描述" (u "required", PyBool false))])];
    [(u "action", PyStr (u "delete"));
     (u "description", PyStr (u "删除指定图片"));
     (u "parameters",
      PyDict
        [(u "image_id",
          param_entry "string" "图片ID" (u "required", PyBool true))])];
    [(u "action", PyStr (u "update"));
     (u "description", PyStr (u "更新图片信息"));
     (u "parameters",
      PyDict
        [(u "image_id",
          param_entry "string" "图片ID" (u "required", PyBool true));
         (u "tags",
          param_entry "array" "新标签" (u "required", PyBool false));
         (u "description",
          param_entry "string" "新描述" (u "required", PyBool false))])];
    [(u "action", PyStr (u "analyze"));
     (u "description", PyStr (u "分析图片内容（预留）"));
     (u "parameters",
      PyDict
        [(u "image_id",
          param_entry "string" "图片ID" (u "required", PyBool true))])] ].

(** The names of the parameters an entry of [get_available_actions] marks
    [required: True]. *)
Definition required_parameters (entry : pydict) : list pystr :=
  match dict_get entry (u "parameters") with
  | Some (PyDict ps) =>
      omap (fun '(name, p) =>
              match p with
              | PyDict fields =>
                  match dict_get fields (u "required") with
                  | Some (PyBool true) => Some name
                  | _ => None
                  end
              | _ => None
              end) ps
  | _ => []
  end.

(** What [get_system_status] reads from the collaborators beyond their
    [is_initialized] flags: the embedding service's flag and the answers of
    [storage_service.get_storage_stats()] and [vector_db_service.count()]. *)
Record StatusProbe : Type := {
  embedding_is_initialized : bool;
  get_storage_stats : exn + pyvalue;
  vector_count : exn + pyvalue;
}.

(** [get_system_status].  The services of an [AgentInterface] are objects, so
    the guards [if self.x_service else False] take their first branch; the
    two counts are asked for only behind the [is_initialized] guards. *)
Definition get_system_status (self : AgentInterface) (probe : StatusProbe)
    : exn + pydict :=
  let total_images :=
    if storage_is_initialized (storage_service self) then
      match get_storage_stats probe with
      | inl e => inl e
      | inr stats => subscript stats (u "total_images")
      end
    else inr (PyInt 0) in
  match total_images with
  | inl e => inl e
  | inr total_images =>
      let total_vectors :=
        if vector_is_initialized (vector_db_service self)
        then vector_count probe else inr (PyInt 0) in
      match total_vectors with
      | inl e => inl e
      | inr total_vectors =>
          inr [(u "embedding_service",
                PyBool (embedding_is_initialized probe));
               (u "search_service",
                PyBool (search_is_initialized (search_service self)));
               (u "storage_service",
                PyBool (storage_is_initialized (storage_service self)));
               (u "vector_db_service",
                PyBool (vector_is_initialized (vector_db_service self)));
               (u "total_images", total_images);
               (u "total_vectors", total_vectors)]
      end
  end.

(** The session routes [/session/create] and [/session/{session_id}]. *)
Module Routes.

Definition create_session (user_id : option pystr) : M pydict :=
  ready ← read_agent is_initialized;
  (if negb ready then on_agent (fun a => (initialize a, tt)) else mret tt);;
  session_id ← svc_create_session user_id;
  mret [(u "status", PyStr (u "success"));
        (u "session_id", PyStr session_id);
        (u "message", PyStr (u "会话创建成功"))].

Definition get_session_info (bi : Builtins) (session_id : pystr) : M pydict :=
  session ← read_agent (fun a => get_session a session_id);
  match session with
  | None => mthrow (HTTPException 404 (u "会话不存在: " ++ session_id))
  | Some s =>
      mret [(u "status", PyStr (u "success"));
            (u "session",
             PyDict
               [(u "session_id", PyStr session_id);
                (u "user_id",
                 match user_id s with Some x => PyStr x | None => PyNone end);
                (u "created_at", PyStr (isoformat bi (created_at s)));
                (u "history_count", PyInt (Z.of_nat (length (history s))));
                (u "context", PyDict (context s))])]
  end.

End Routes.

(** A service with every collaborator initialised and answering as given. *)
Definition sample_interface (file_deleted vector_deleted updated : bool)
    (found : pyvalue) : AgentInterface :=
  {| search_service :=
       {| search_is_initialized := true;
          search := fun _ _ _ _ _ => inr found;
          search_by_text := fun _ _ _ => inr [] |};
     storage_service :=
       {| storage_is_initialized := true;
          delete_image := fun _ => inr file_deleted |};
     vector_db_service :=
       {| vector_is_initialized := true;
          vector_delete := fun _ => inr vector_deleted;
          update_metadata := fun _ _ => inr updated |} |}.

(** A search service that is initialised and finds [images]. *)
Definition sample_search (images : list pyvalue) : SearchService :=
  {| search_is_initialized := true;
     search := fun _ _ _ _ _ => inr PyNone;
     search_by_text := fun _ _ _ => inr images |}.

(** A search service that is not initialised. *)
Definition offline_search : SearchService :=
  {| search_is_initialized := false;
     search := fun _ _ _ _ _ => inl (RuntimeError []);
     search_by_text := fun _ _ _ => inl (RuntimeError []) |}.

(** The store holds only well-formed sessions: ids are 36 characters long,
    contexts are empty, and every history event is a [query_optimize] event
    whose optimised query is its original. *)
Definition store_well_formed (a : AgentService) : Prop :=
  forall sid s, get_session a sid = Some s ->
    length sid = 36%nat
    /\ context s = []
    /\ Forall (fun ev => ev_type ev = u "query_optimize"
                         /\ ev_optimized ev = ev_original ev) (history s).

(** [v] is [None], a [str], a [list] or a [dict].  Python orders none of
    these against an [int]: [v > 10] raises [TypeError], and [v == 0] is
    [False]. *)
Definition none_str_list_or_dict (v : pyvalue) : Prop :=
  match v with
  | PyNone | PyStr _ | PyList _ | PyDict _ => True
  | PyBool _ | PyInt _ => False
  end.

(** Steps 3 to 6 of [agent_chat], from the tool call on, for the session
    and the intent the earlier steps arrived at; the optimised query is the
    query. *)
Definition chat_tail (bi : Builtins) (search_svc : SearchService)
    (message : ChatMessage.t) (session_id : pystr) : M ChatResponse.t :=
  let q := ChatMessage.query message in
  let intent := intent (detect_intent bi q) in
  results ← chat_results search_svc intent q message;
  suggestions ← lift (generate_suggestions intent (PyDict results));
  now ← datetime_now;
  mret {| ChatResponse.session_id := session_id;
          ChatResponse.answer :=
            generate_response bi intent (PyDict results) q;
          ChatResponse.intent := intent;
          ChatResponse.optimized_query := q;
          ChatResponse.results := Some results;
          ChatResponse.suggestions := suggestions;
          ChatResponse.timestamp := isoformat bi now |}.

(** * Properties *)

(** ** The definitions on concrete inputs *)

Example u_decodes : u "删除 ok" = [21024; 38500; 32; 111; 107]%N.
Proof. reflexivity. Qed.

Example str_in_examples :
  str_in (u "delete") (u "please delete it") = true
  /\ str_in (u "delete") (u "please delet it") = false
  /\ str_in [] [] = true.
Proof. by vm_compute. Qed.

Example str_of_int_examples :
  str_of_int 0 = u "0" /\ str_of_int 12 = u "12" /\ str_of_int (-7) = u "-7".
Proof. by vm_compute. Qed.

Example uuid_str_example :
  uuid_str 0x123456789abcdef0123456789abcdef0
  = u "12345678-9abc-def0-1234-56789abcdef0".
Proof. by vm_compute. Qed.

Example detect_intent_examples :
  intent (detect_intent ascii_builtins (u "我昨天拍的小狗照片")) = u "search"
  /\ intent (detect_intent ascii_builtins (u "删除这张照片")) = u "delete"
  /\ intent (detect_intent ascii_builtins (u "Upload and delete")) = u "delete"
  /\ intent (detect_intent ascii_builtins (u "这是什么 add")) = u "upload"
  /\ intent (detect_intent ascii_builtins (u "这是什么")) = u "analyze".
Proof. by vm_compute. Qed.

Example truthy_examples :
  truthy PyNone = false /\ truthy (PyStr []) = false
  /\ truthy (PyInt 0) = false /\ truthy (PyStr (u "img_abc123")) = true.
Proof. by vm_compute. Qed.

(** ** Strings *)

Lemma starts_with_app (p b : pystr) : starts_with p (p ++ b) = true.
Proof.
  induction p as [|x p IH]; simpl; [done|].
  by rewrite N.eqb_refl, IH.
Qed.

Lemma starts_with_inv (p s : pystr) :
  starts_with p s = true -> exists b, s = p ++ b.
Proof.
  revert s. induction p as [|x p IH]; intros s H.
  - by exists s.
  - destruct s as [|y s]; simpl in H; [done|].
    apply andb_prop in H as [Hxy Hps].
    apply N.eqb_eq in Hxy as ->.
    destruct (IH _ Hps) as [b ->]. by exists b.
Qed.

Lemma str_in_substring (p s : pystr) : str_in p s = true <-> substring p s.
Proof.
  split.
  - induction s as [|y s IH]; simpl; intros H.
    + rewrite orb_false_r in H. apply starts_with_inv in H as [b ->].
      by exists [], b.
    + apply orb_prop in H as [H|H].
      * apply starts_with_inv in H as [b ->]. by exists [], b.
      * destruct (IH H) as (a & b & ->). by exists (y :: a), b.
  - intros (a & b & ->). induction a as [|y a IH].
    + assert (Hs : starts_with p ([] ++ p ++ b) = true)
        by exact (starts_with_app p b).
      destruct ([] ++ p ++ b); simpl; by rewrite Hs.
    + simpl. rewrite IH. apply orb_true_r.
Qed.

Lemma any_in_has_keyword (kws : list pystr) (s : pystr) :
  any_in kws s = true <-> has_keyword kws s.
Proof.
  unfold any_in, has_keyword. rewrite existsb_exists.
  split; intros (kw & Hin & H); exists kw; split; try done;
    by apply str_in_substring.
Qed.

Lemma str_in_middle (a p b : pystr) : str_in p (a ++ p ++ b) = true.
Proof. apply str_in_substring. by exists a, b. Qed.

Lemma substring_app_l (p s x : pystr) : substring p s -> substring p (x ++ s).
Proof. intros (a & b & ->). exists (x ++ a), b. by rewrite <- app_assoc. Qed.

Lemma substring_app_r (p s x : pystr) : substring p s -> substring p (s ++ x).
Proof.
  intros (a & b & ->). exists a, (b ++ x). by rewrite <- !app_assoc.
Qed.

Lemma substring_here (p b : pystr) : substring p (p ++ b).
Proof. by exists [], b. Qed.

Lemma substring_of_test (p s : pystr) : str_in p s = true -> substring p s.
Proof. apply str_in_substring. Qed.

(** ** Intent classification *)

Lemma detect_intent_cases (bi : Builtins) (q : pystr) :
  detect_intent bi q =
    let s := str_lower bi q in
    if any_in delete_keywords s then
      {| intent := u "delete"; confidence := 0.8%Q; entities := [] |}
    else if any_in upload_keywords s then
      {| intent := u "upload"; confidence := 0.8%Q; entities := [] |}
    else if any_in analyze_keywords s then
      {| intent := u "analyze"; confidence := 0.7%Q; entities := [] |}
    else {| intent := u "search"; confidence := 0.9%Q; entities := [] |}.
Proof. reflexivity. Qed.

Lemma any_in_false (kws : list pystr) (s : pystr) :
  ~ has_keyword kws s -> any_in kws s = false.
Proof.
  intros H. destruct (any_in kws s) eqn:E; [|done].
  by apply any_in_has_keyword in E.
Qed.

Lemma detect_intent_delete (bi : Builtins) (q : pystr) :
  has_keyword delete_keywords (str_lower bi q) ->
  detect_intent bi q =
    {| intent := u "delete"; confidence := 0.8%Q; entities := [] |}.
Proof.
  intros H. apply any_in_has_keyword in H.
  rewrite detect_intent_cases. cbv zeta. by rewrite H.
Qed.

(** For a lower-casing that works letter by letter and leaves the keywords
    as they are, a keyword written in the query is found in its
    lower-casing. *)
Lemma has_keyword_lower (bi : Builtins) (kws : list pystr) (q : pystr) :
  (forall a b, str_lower bi (a ++ b) = str_lower bi a ++ str_lower bi b) ->
  (forall kw, In kw kws -> str_lower bi kw = kw) ->
  has_keyword kws q -> has_keyword kws (str_lower bi q).
Proof.
  intros Happ Hfix (kw & Hin & a & b & ->).
  exists kw. split; [done|].
  exists (str_lower bi a), (str_lower bi b).
  by rewrite !Happ, (Hfix kw Hin).
Qed.

Lemma ascii_lower_app (a b : pystr) :
  ascii_lower (a ++ b) = ascii_lower a ++ ascii_lower b.
Proof. apply map_app. Qed.

(** C2.  Classification is priority-ordered, first match wins, by substring
    matching of fixed keyword sets against the lower-cased query: a delete
    keyword gives [delete] with confidence 0.8; otherwise an upload keyword
    gives [upload] with 0.8; otherwise an analyze keyword gives [analyze]
    with 0.7; otherwise the result is [search] with 0.9.  The intent is never
    [unknown], the entities are always empty, and two queries with the same
    lower-casing classify alike. *)
Theorem detect_intent_priority (bi : Builtins) (q : pystr) :
  let s := str_lower bi q in
  let r := detect_intent bi q in
  (has_keyword delete_keywords s ->
     intent r = u "delete" /\ confidence r = 0.8%Q)
  /\ (~ has_keyword delete_keywords s -> has_keyword upload_keywords s ->
     intent r = u "upload" /\ confidence r = 0.8%Q)
  /\ (~ has_keyword delete_keywords s -> ~ has_keyword upload_keywords s ->
      has_keyword analyze_keywords s ->
     intent r = u "analyze" /\ confidence r = 0.7%Q)
  /\ (~ has_keyword delete_keywords s -> ~ has_keyword upload_keywords s ->
      ~ has_keyword analyze_keywords s ->
     intent r = u "search" /\ confidence r = 0.9%Q)
  /\ intent r <> u "unknown"
  /\ entities r = []
  /\ (forall q', str_lower bi q' = str_lower bi q ->
        detect_intent bi q' = detect_intent bi q).
Proof.
  intros s r. subst r. rewrite detect_intent_cases. fold s. cbv zeta.
  refine (conj _ (conj _ (conj _ (conj _ (conj _ (conj _ _)))))).
  - intros H. apply any_in_has_keyword in H. by rewrite H.
  - intros Hd Hu. apply any_in_false in Hd. apply any_in_has_keyword in Hu.
    by rewrite Hd, Hu.
  - intros Hd Hu Ha. apply any_in_false in Hd, Hu.
    apply any_in_has_keyword in Ha. by rewrite Hd, Hu, Ha.
  - intros Hd Hu Ha. apply any_in_false in Hd, Hu, Ha. by rewrite Hd, Hu, Ha.
  - destruct (any_in delete_keywords s); [by vm_compute|].
    destruct (any_in upload_keywords s); [by vm_compute|].
    destruct (any_in analyze_keywords s); by vm_compute.
  - destruct (any_in delete_keywords s); [done|].
    destruct (any_in upload_keywords s); [done|].
    by destruct (any_in analyze_keywords s).
  - intros q' E. rewrite !detect_intent_cases. cbv zeta. fold s. by rewrite E.
Qed.

(** An upper-case English keyword is matched through the lower-casing. *)
Lemma detect_intent_priority_witness :
  intent (detect_intent ascii_builtins (u "Please DELETE photo 7")) = u "delete"
  /\ confidence (detect_intent ascii_builtins (u "Please DELETE photo 7"))
     = 0.8%Q.
Proof.
  apply (detect_intent_priority ascii_builtins (u "Please DELETE photo 7")).
  apply any_in_has_keyword. vm_compute. reflexivity.
Defined.

(** ** Answers and suggestions *)

Lemma dict_get_default_Some (d : pydict) (k : pystr) (v dflt : pyvalue) :
  dict_get d k = Some v -> dict_get_default d k dflt = v.
Proof. unfold dict_get_default. by intros ->. Qed.

Lemma dict_get_default_None (d : pydict) (k : pystr) (dflt : pyvalue) :
  dict_get d k = None -> dict_get_default d k dflt = dflt.
Proof. unfold dict_get_default. by intros ->. Qed.

Lemma generate_response_search_dict (bi : Builtins) (d : pydict) (q : pystr) :
  generate_response bi (u "search") (PyDict d) q =
    let total := dict_get_default d (u "total") (PyInt 0) in
    if py_eq_int total 0 then
      u "抱歉，没有找到与「" ++ q ++ u "」相关的照片。可以尝试换个描述方式。"
    else if py_eq_int total 1 then u "找到 1 张符合「" ++ q ++ u "」的照片。"
    else u "为您找到了 " ++ py_format bi total ++ u " 张与「" ++ q
           ++ u "」相关的照片。".
Proof. unfold generate_response. by rewrite decide_True. Qed.

(** C6.  For a search result dict whose total is the integer [t], the answer
    depends on the count: for [t = 0] it apologises, quotes the query and
    proposes another description; for [t = 1] it is the singular sentence
    around the query; for [t > 1] it is the plural sentence, which holds the
    decimal digits of [t]. *)
Theorem generate_response_count_sensitive (bi : Builtins) (q : pystr)
    (d : pydict) (t : Z) :
  dict_get d (u "total") = Some (PyInt t) ->
  let answer := generate_response bi (u "search") (PyDict d) q in
  (t = 0 ->
     answer = u "抱歉，没有找到与「" ++ q
                ++ u "」相关的照片。可以尝试换个描述方式。"
     /\ substring q answer
     /\ substring (u "抱歉") answer
     /\ substring (u "可以尝试换个描述方式") answer)
  /\ (t = 1 -> answer = u "找到 1 张符合「" ++ q ++ u "」的照片。")
  /\ (1 < t ->
     answer = u "为您找到了 " ++ str_of_int t ++ u " 张与「" ++ q
                ++ u "」相关的照片。"
     /\ substring (str_of_int t) answer
     /\ substring q answer).
Proof.
  intros Ht answer. subst answer. rewrite generate_response_search_dict.
  rewrite (dict_get_default_Some _ _ _ _ Ht). cbn [py_eq_int py_format].
  refine (conj _ (conj _ _)).
  - intros ->. cbn [Z.eqb]. refine (conj eq_refl (conj _ (conj _ _))).
    + apply substring_app_l, substring_here.
    + apply substring_app_r. apply substring_of_test. by vm_compute.
    + do 2 apply substring_app_l. apply substring_of_test. by vm_compute.
  - intros ->. done.
  - intros Hgt.
    destruct (Z.eqb_spec t 0) as [->|_]; [lia|].
    destruct (Z.eqb_spec t 1) as [->|_]; [lia|].
    refine (conj eq_refl (conj _ _)).
    + apply substring_app_l, substring_here.
    + do 3 apply substring_app_l. apply substring_here.
Qed.

Lemma generate_response_count_sensitive_witness :
  generate_response ascii_builtins (u "search")
    (PyDict [(u "total", PyInt 12); (u "images", PyList [])]) (u "小狗")
  = u "为您找到了 12 张与「小狗」相关的照片。".
Proof.
  pose proof (generate_response_count_sensitive ascii_builtins (u "小狗")
                [(u "total", PyInt 12); (u "images", PyList [])] 12
                eq_refl) as (_ & _ & H).
  destruct (H ltac:(lia)) as [E _]. rewrite E. vm_compute. reflexivity.
Defined.

Lemma generate_suggestions_search_dict (d : pydict) :
  generate_suggestions (u "search") (PyDict d) =
    let total := dict_get_default d (u "total") (PyInt 0) in
    if py_eq_int total 0 then
      inr [u "换个描述试试"; u "查看所有照片"; u "按日期筛选"]
    else
      match py_gt_int total 10 with
      | inl e => inl e
      | inr true =>
          inr [u "添加更多细节缩小范围"; u "按标签过滤"; u "查看相似图片"]
      | inr false =>
          inr [u "查找相似的照片"; u "这些照片是什么时候拍的";
               u "给这些照片打标签"]
      end.
Proof. unfold generate_suggestions. by rewrite decide_True. Qed.

(** C1, as announced, fails on both paths: the chat path gives three
    suggestions for no match, the direct path gives none for five matches. *)
Lemma suggestion_counts_counterexample :
  ~ (forall t, 0 <= t ->
       exists l, generate_suggestions (u "search")
                   (PyDict [(u "total", PyInt t)]) = inr l
                 /\ length l = announced_search_suggestions t)
  /\ ~ (forall t, 0 <= t ->
       exists l, _generate_suggestions SEARCH (search_action_result t) = inr l
                 /\ length l = announced_search_suggestions t).
Proof.
  split.
  - intros H. destruct (H 0 ltac:(lia)) as (l & E & Hl).
    vm_compute in E. injection E as <-. vm_compute in Hl. discriminate.
  - intros H. destruct (H 5 ltac:(lia)) as (l & E & Hl).
    vm_compute in E. injection E as <-. vm_compute in Hl. discriminate.
Qed.

(** C1 (amended).  On the chat path, [generate_suggestions] gives exactly
    three suggestions for a search result dict with an integer total [t],
    whether [t = 0], [t > 10] or neither, and the empty list for every other
    intent and for a result that is not a dict.  On the direct path,
    [_generate_suggestions] gives, for a successful search whose result has
    the integer total [t], exactly two suggestions when [t = 0], exactly two
    when [t > 10] and none otherwise; for every result whose [success] is
    truthy, whatever else it holds, one suggestion for a delete and one for
    an update; the empty list for upload and analyze on every result, and
    for every action on a result whose [success] is not truthy. *)
Theorem suggestion_counts :
  (* chat path *)
  (forall (d : pydict) (t : Z),
     dict_get d (u "total") = Some (PyInt t) ->
     generate_suggestions (u "search") (PyDict d) =
       inr (if t =? 0 then
              [u "换个描述试试"; u "查看所有照片"; u "按日期筛选"]
            else if 10 <? t then
              [u "添加更多细节缩小范围"; u "按标签过滤"; u "查看相似图片"]
            else
              [u "查找相似的照片"; u "这些照片是什么时候拍的";
               u "给这些照片打标签"])
     /\ (exists l, generate_suggestions (u "search") (PyDict d) = inr l
                   /\ length l = 3%nat))
  /\ (forall i v, i <> u "search" -> generate_suggestions i v = inr [])
  /\ (forall i v, (forall x, v <> PyDict x) -> generate_suggestions i v = inr [])
  (* direct path *)
  /\ (forall (result r : pydict) (t : Z),
        truthy (dict_get_default result (u "success") PyNone) = true ->
        dict_get result (u "result") = Some (PyDict r) ->
        dict_get r (u "total") = Some (PyInt t) ->
        _generate_suggestions SEARCH result =
          inr (if (t =? 0) || (10 <? t) then
                 (if t =? 0 then
                    [u "尝试使用不同的关键词搜索";
                     u "检查是否有相关标签可以过滤"]
                  else
                    [u "可以添加更具体的描述来缩小搜索范围";
                     u "尝试使用标签过滤来精确结果"])
               else [])
        /\ (exists l, _generate_suggestions SEARCH result = inr l
                      /\ length l =
                           if (t =? 0) || (10 <? t) then 2%nat else 0%nat))
  /\ (forall result : pydict,
        truthy (dict_get_default result (u "success") PyNone) = true ->
        _generate_suggestions DELETE result =
          inr [u "删除操作已完成，相关数据已清理"]
        /\ _generate_suggestions UPDATE result =
             inr [u "更新成功，可以搜索验证更新效果"])
  /\ (forall result : pydict,
        _generate_suggestions UPLOAD result = inr []
        /\ _generate_suggestions ANALYZE result = inr [])
  /\ (forall a res, truthy (dict_get_default res (u "success") PyNone) = false ->
        _generate_suggestions a res = inr []).
Proof.
  refine (conj _ (conj _ (conj _ (conj _ (conj _ (conj _ _)))))).
  - intros d t Hd.
    assert (Hchat : generate_suggestions (u "search") (PyDict d) =
      inr (if t =? 0 then
             [u "换个描述试试"; u "查看所有照片"; u "按日期筛选"]
           else if 10 <? t then
             [u "添加更多细节缩小范围"; u "按标签过滤"; u "查看相似图片"]
           else
             [u "查找相似的照片"; u "这些照片是什么时候拍的";
              u "给这些照片打标签"])).
    { rewrite generate_suggestions_search_dict.
      rewrite (dict_get_default_Some _ _ _ _ Hd). cbn [py_eq_int py_gt_int].
      destruct (t =? 0); [done|]. by destruct (10 <? t). }
    split; [exact Hchat|].
    rewrite Hchat. eexists; split; [done|].
    destruct (t =? 0); [done|]. by destruct (10 <? t).
  - intros i v Hi. unfold generate_suggestions. by rewrite decide_False.
  - intros i v Hv. unfold generate_suggestions.
    destruct (decide (i = u "search")); [|done].
    destruct v; try done. by destruct (Hv d).
  - intros result r t Hs Hr Ht.
    assert (Hdirect : _generate_suggestions SEARCH result =
         inr (if (t =? 0) || (10 <? t) then
                (if t =? 0 then
                   [u "尝试使用不同的关键词搜索";
                    u "检查是否有相关标签可以过滤"]
                 else
                   [u "可以添加更具体的描述来缩小搜索范围";
                    u "尝试使用标签过滤来精确结果"])
              else [])).
    { unfold _generate_suggestions. rewrite Hs.
      rewrite (dict_get_default_Some _ _ _ _ Hr).
      rewrite (dict_get_default_Some _ _ _ _ Ht). cbn [py_eq_int py_gt_int].
      destruct (t =? 0); [done|]. by destruct (10 <? t). }
    split; [exact Hdirect|].
    rewrite Hdirect. eexists; split; [done|].
    destruct (t =? 0); [done|]. by destruct (10 <? t).
  - intros result Hs. unfold _generate_suggestions. by rewrite Hs.
  - intros result. by unfold _generate_suggestions.
  - intros a res Hf. unfold _generate_suggestions. rewrite Hf. by destruct a.
Qed.

(** The counts at work: three chat suggestions and two direct ones for a
    search without a match; one suggestion for the result of a deletion that
    removed the file, which has no total. *)
Lemma suggestion_counts_witness :
  (exists l, generate_suggestions (u "search")
               (PyDict [(u "total", PyInt 0); (u "images", PyList [])]) = inr l
             /\ length l = 3%nat)
  /\ (exists l, _generate_suggestions SEARCH (search_action_result 0) = inr l
                /\ length l = 2%nat)
  /\ _generate_suggestions DELETE
       [(u "success", PyBool true);
        (u "action", PyStr (u "delete"));
        (u "result", PyDict [(u "file_deleted", PyBool true);
                             (u "vector_deleted", PyBool false)]);
        (u "message", PyStr (u "图片已删除"))]
     = inr [u "删除操作已完成，相关数据已清理"]
  /\ _generate_suggestions UPDATE
       [(u "success", PyBool true);
        (u "action", PyStr (u "update"));
        (u "message", PyStr (u "更新成功"))]
     = inr [u "更新成功，可以搜索验证更新效果"].
Proof.
  destruct suggestion_counts as (Hchat & _ & _ & Hsearch & Hdu & _).
  destruct (Hchat [(u "total", PyInt 0); (u "images", PyList [])] 0 eq_refl)
    as [_ H1].
  destruct (Hsearch (search_action_result 0) [(u "total", PyInt 0)] 0
              eq_refl eq_refl eq_refl) as [_ H2].
  refine (conj H1 (conj H2 (conj _ _))).
  - match goal with
    | |- _generate_suggestions _ ?res = _ => exact (proj1 (Hdu res eq_refl))
    end.
  - match goal with
    | |- _generate_suggestions _ ?res = _ => exact (proj2 (Hdu res eq_refl))
    end.
Defined.

(** ** Session identifiers *)

Lemma length_hex_fixed (k : nat) (n : N) : length (hex_fixed k n) = k.
Proof.
  revert n. induction k as [|k IH]; intros n; simpl; [done|].
  rewrite length_app, IH. simpl. lia.
Qed.




Lemma length_uuid_dashed (x : pystr) :
  length x = 32%nat -> length (uuid_dashed x) = 36%nat.
Proof.
  intros L. unfold uuid_dashed. change (u "-") with [45%N].
  rewrite !length_app, !length_take, !length_drop, L. simpl. lia.
Qed.


Lemma length_uuid_str (n : N) : length (uuid_str n) = 36%nat.
Proof. apply length_uuid_dashed, length_hex_fixed. Qed.

Lemma uuid_str_nonempty (n : N) : uuid_str n <> [].
Proof.
  intros E. pose proof (length_uuid_str n) as H. by rewrite E in H.
Qed.


(** ** The session store *)

Lemma get_session_create (a : AgentService) uid n now (sid : pystr) :
  get_session (fst (create_session a uid n now)) sid =
    if decide (uuid_str n = sid)
    then Some {| user_id := uid; created_at := now;
                 history := []; context := [] |}
    else get_session a sid.
Proof.
  unfold create_session, get_session. simpl.
  case_decide as E.
  - subst sid. apply lookup_insert_eq.
  - by apply lookup_insert_ne.
Qed.

Lemma create_session_returns (a : AgentService) uid n now :
  snd (create_session a uid n now) = uuid_str n.
Proof. reflexivity. Qed.

Lemma optimize_query_hit (a : AgentService) q (sid : pystr) now s :
  sid <> [] -> get_session a sid = Some s ->
  forall sid',
    get_session (fst (optimize_query a q (Some sid) now)) sid' =
      if decide (sid = sid')
      then Some (history_append (optimize_event q now) s)
      else get_session a sid'.
Proof.
  intros Hne Hs sid'. unfold optimize_query.
  destruct sid as [|c sid]; [done|]. rewrite Hs.
  unfold get_session in *. simpl.
  case_decide as E.
  - subst sid'. by rewrite lookup_alter_eq, Hs.
  - by rewrite lookup_alter_ne.
Qed.

Lemma optimize_query_miss (a : AgentService) q (sid : option pystr) now :
  (forall s, sid = Some s -> s <> [] -> get_session a s = None) ->
  fst (optimize_query a q sid now) = a.
Proof.
  intros H. unfold optimize_query.
  destruct sid as [[|c s]|]; try done.
  by rewrite (H (c :: s)).
Qed.

Lemma optimize_query_returns (a : AgentService) q sid now :
  snd (optimize_query a q sid now) = q.
Proof. reflexivity. Qed.

(** No reachable store has a session under the empty string. *)
Lemma reachable_no_empty_id (a : AgentService) :
  reachable a -> get_session a [] = None.
Proof.
  induction 1 as [|a _ IH|a uid n now _ IH|a q sid now _ IH].
  - done.
  - unfold initialize. by destruct (_initialized a).
  - rewrite get_session_create. rewrite decide_False; [done|].
    apply uuid_str_nonempty.
  - destruct sid as [[|c s]|]; try done.
    destruct (get_session a (c :: s)) as [x|] eqn:E.
    + assert (Hne : c :: s <> []) by done.
      rewrite (optimize_query_hit _ _ _ _ _ Hne E).
      by rewrite decide_False.
    + by rewrite optimize_query_miss by (intros ? [= <-] _; done).
Qed.

(** The router's [optimize_query] never raises, returns the query, and leaves
    the service as the method does on the clock's current reading. *)
Lemma svc_optimize_query_run (q : pystr) (sid : option pystr) (w : World) :
  exists w',
    svc_optimize_query q sid w = (inr q, w')
    /\ agent w' = fst (optimize_query (agent w) q sid (clock w (clock_read w)))
    /\ calls w' = calls w
    /\ uuid_source w' = uuid_source w /\ uuid_drawn w' = uuid_drawn w
    /\ clock w' = clock w.
Proof.
  unfold svc_optimize_query.
  destruct sid as [[|c s]|]; try (eexists; split; [reflexivity|done]).
  cbv [mbind M_bind read_agent datetime_now on_agent].
  destruct (get_session (agent w) (c :: s)) as [x|] eqn:E; simpl.
  - eexists; split; [reflexivity|]. simpl. by rewrite E.
  - eexists; split; [reflexivity|]. simpl. by rewrite E.
Qed.

(** C3.  In every reachable state, [optimize_query] returns the query
    unchanged.  When a session id is given and resolves, exactly one
    [query_optimize] event, holding the query as original and as optimized
    and the clock reading, is appended to that session's history, and no
    other session changes.  When no id is given, or the id does not resolve,
    the service is left as it was.  The router's call never raises. *)
Theorem optimize_query_identity (a : AgentService) (q : pystr)
    (sid : option pystr) (now : datetime) :
  reachable a ->
  let a' := fst (optimize_query a q sid now) in
  snd (optimize_query a q sid now) = q
  /\ (forall s x, sid = Some s -> get_session a s = Some x ->
        (exists x', get_session a' s = Some x'
           /\ history x' = history x ++ [optimize_event q now]
           /\ length (history x') = S (length (history x))
           /\ created_at x' = created_at x /\ user_id x' = user_id x
           /\ context x' = context x)
        /\ (forall s', s' <> s -> get_session a' s' = get_session a s'))
  /\ ((sid = None \/ exists s, sid = Some s /\ get_session a s = None) ->
        a' = a)
  /\ (forall w, fst (svc_optimize_query q sid w) = inr q).
Proof.
  intros Hr a'. subst a'. refine (conj eq_refl (conj _ (conj _ _))).
  - intros s x -> Hs.
    assert (Hne : s <> []).
    { intros ->. by rewrite (reachable_no_empty_id a Hr) in Hs. }
    split.
    + exists (history_append (optimize_event q now) x).
      rewrite (optimize_query_hit _ _ _ _ _ Hne Hs), decide_True by done.
      simpl. rewrite length_app. simpl. repeat split; try done. lia.
    + intros s' Hs'.
      rewrite (optimize_query_hit _ _ _ _ _ Hne Hs).
      by rewrite decide_False.
  - intros [->|(s & -> & Hs)]; [done|].
    apply optimize_query_miss. by intros ? [= <-] _.
  - intros w. by destruct (svc_optimize_query_run q sid w) as (w' & -> & _).
Qed.

Lemma optimize_query_identity_witness :
  let a := fst (create_session fresh_service None 7 1000) in
  exists x', get_session
               (fst (optimize_query a (u "小狗") (Some (uuid_str 7)) 2000))
               (uuid_str 7) = Some x'
    /\ history x' = [optimize_event (u "小狗") 2000].
Proof.
  intros a.
  pose proof (optimize_query_identity a (u "小狗") (Some (uuid_str 7)) 2000
                (reach_create _ None 7 1000 reach_fresh)) as (_ & H & _).
  destruct (H (uuid_str 7)
              {| user_id := None; created_at := 1000;
                 history := []; context := [] |} eq_refl)
    as [(x' & E & Hh & _) _].
  - subst a. rewrite get_session_create. by rewrite decide_True.
  - exists x'. split; [exact E|exact Hh].
Defined.

(** ** Sequences of store operations *)














(** Without the freshness of the draw the store does not protect a session:
    a create that draws the id of an existing session replaces it. *)
Lemma create_session_same_uuid (a : AgentService) uid n now :
  get_session (fst (create_session a uid n now)) (uuid_str n) =
    Some {| user_id := uid; created_at := now; history := []; context := [] |}.
Proof. rewrite get_session_create. by rewrite decide_True. Qed.










(** ** The singleton *)

Lemma construct_known (rt : Singleton.Runtime) (r : Singleton.ref) :
  Singleton.cls_instance rt = Some r ->
  Singleton.construct rt = (Singleton.AgentService_init rt r, r).
Proof.
  intros H. unfold Singleton.construct, Singleton.AgentService_new.
  by rewrite H.
Qed.

Lemma construct_instance (rt rt1 : Singleton.Runtime) (r1 : Singleton.ref) :
  Singleton.construct rt = (rt1, r1) -> Singleton.cls_instance rt1 = Some r1.
Proof.
  unfold Singleton.construct, Singleton.AgentService_new.
  destruct (Singleton.cls_instance rt) as [r|] eqn:E; intros [= <- <-]; done.
Qed.

Lemma init_attributes (rt : Singleton.Runtime) (r : Singleton.ref) :
  Singleton.heap (Singleton.AgentService_init rt r) !! r =
    Some (Some {| _initialized := Singleton.getattr_initialized rt r;
                  _sessions := ∅; _llm_client := None |}).
Proof. unfold Singleton.AgentService_init. simpl. apply lookup_insert_eq. Qed.

(** [get_agent_service] constructs once: a second call returns the same
    object and leaves the runtime, hence the sessions, as they are. *)
Lemma get_agent_service_once (rt rt1 : Singleton.Runtime) (r1 : Singleton.ref) :
  Singleton.get_agent_service rt = (rt1, r1) ->
  Singleton.get_agent_service rt1 = (rt1, r1).
Proof.
  unfold Singleton.get_agent_service.
  destruct (Singleton.glob_agent_service rt) as [r|] eqn:E.
  - intros [= <- <-]. by rewrite E.
  - destruct (Singleton.construct rt) as [rt' r']. by intros [= <- <-].
Qed.

(** C10.  A construction [AgentService()] leaves the class attribute
    pointing at the object it returns, with an empty session map.  Every
    later construction returns that same object, runs [__init__] on it
    again, keeps its [_initialized] flag and empties its session map: a
    session created in between resolved before the construction and is not
    found after it, like every other id. *)
Theorem constructor_resets_sessions (rt rt1 : Singleton.Runtime)
    (r1 : Singleton.ref) :
  Singleton.construct rt = (rt1, r1) ->
  Singleton.cls_instance rt1 = Some r1
  /\ (exists o, Singleton.heap rt1 !! r1 = Some (Some o) /\ _sessions o = ∅)
  /\ (forall rt2, Singleton.cls_instance rt2 = Some r1 ->
        exists rt3,
          Singleton.construct rt2 = (rt3, r1)
          /\ Singleton.cls_instance rt3 = Some r1
          /\ Singleton.getattr_initialized rt3 r1 =
               Singleton.getattr_initialized rt2 r1
          /\ (exists o, Singleton.heap rt3 !! r1 = Some (Some o)
                        /\ _sessions o = ∅)
          /\ forall sid, Singleton.obj_get_session rt3 r1 sid = None)
  /\ (forall uid n now,
        exists rt2 s,
          Singleton.call_method (fun o => create_session o uid n now) rt1 r1
            = Some (rt2, uuid_str n)
          /\ Singleton.cls_instance rt2 = Some r1
          /\ Singleton.obj_get_session rt2 r1 (uuid_str n) = Some s
          /\ Singleton.obj_get_session (fst (Singleton.construct rt2)) r1
               (uuid_str n) = None).
Proof.
  intros Hc. pose proof (construct_instance _ _ _ Hc) as Hi.
  assert (Hheap : Singleton.heap rt1 !! r1 =
            Some (Some {| _initialized := Singleton.getattr_initialized
                                            (fst (Singleton.AgentService_new rt)) r1;
                          _sessions := ∅; _llm_client := None |})).
  { unfold Singleton.construct in Hc.
    destruct (Singleton.AgentService_new rt) as [rt0 r0].
    injection Hc as <- <-. apply init_attributes. }
  assert (Hre : forall rt2, Singleton.cls_instance rt2 = Some r1 ->
            forall sid, Singleton.obj_get_session
                          (Singleton.AgentService_init rt2 r1) r1 sid = None).
  { intros rt2 _ sid. unfold Singleton.obj_get_session.
    by rewrite init_attributes. }
  refine (conj Hi (conj _ (conj _ _))).
  - eexists. split; [exact Hheap|done].
  - intros rt2 H2. exists (Singleton.AgentService_init rt2 r1).
    refine (conj (construct_known _ _ H2) (conj H2 (conj _ (conj _ _)))).
    + unfold Singleton.getattr_initialized at 1. by rewrite init_attributes.
    + eexists. split; [apply init_attributes|done].
    + by apply Hre.
  - intros uid n now. unfold Singleton.call_method. rewrite Hheap.
    eexists _, _. split; [reflexivity|]. split; [exact Hi|]. split.
    + unfold Singleton.obj_get_session. cbn [Singleton.heap].
      rewrite lookup_insert_eq. unfold get_session. cbn [_sessions].
      apply lookup_insert_eq.
    + rewrite (construct_known _ r1) by exact Hi. cbn [fst]. by apply Hre.
Qed.

Lemma constructor_resets_sessions_witness :
  exists rt1 r1 rt2 s,
    Singleton.construct Singleton.boot = (rt1, r1)
    /\ Singleton.call_method (fun o => create_session o None 7 1000) rt1 r1
       = Some (rt2, uuid_str 7)
    /\ Singleton.obj_get_session rt2 r1 (uuid_str 7) = Some s
    /\ snd (Singleton.construct rt2) = r1
    /\ Singleton.obj_get_session (fst (Singleton.construct rt2)) r1
         (uuid_str 7) = None.
Proof.
  destruct (Singleton.construct Singleton.boot) as [rt1 r1] eqn:E.
  destruct (constructor_resets_sessions _ _ _ E) as (_ & _ & Hsame & Hnew).
  destruct (Hnew None 7%N 1000) as (rt2 & s & Hcall & Hcls & Hget & Hgone).
  destruct (Hsame rt2 Hcls) as (rt3 & Hc3 & _).
  exists rt1, r1, rt2, s. rewrite Hc3. simpl.
  rewrite Hc3 in Hgone. done.
Defined.

(** ** Running handlers *)

Lemma silently_ret {A} (a : A) (P : A -> Prop) : P a -> silently (mret a) P.
Proof. intros H w. by exists a, w. Qed.

Lemma silently_bind {A B} (m : M A) (k : A -> M B) (P : A -> Prop)
    (Q : B -> Prop) :
  silently m P -> (forall a, P a -> silently (k a) Q) -> silently (m ≫= k) Q.
Proof.
  intros Hm Hk w. destruct (Hm w) as (a & w1 & E & Hc & Ha).
  destruct (Hk a Ha w1) as (b & w2 & E2 & Hc2 & Hb).
  exists b, w2. cbv [mbind M_bind]. rewrite E, E2. split; [done|].
  split; [congruence|done].
Qed.

Lemma silently_weaken {A} (m : M A) (P Q : A -> Prop) :
  silently m P -> (forall a, P a -> Q a) -> silently m Q.
Proof.
  intros Hm HPQ w. destruct (Hm w) as (a & w1 & E & Hc & Ha).
  exists a, w1. auto.
Qed.

Lemma silently_read_agent {A} (f : AgentService -> A) :
  silently (read_agent f) (fun _ => True).
Proof. intros w. by exists (f (agent w)), w. Qed.

Lemma silently_on_agent {A} (m : AgentService -> AgentService * A) :
  silently (on_agent m) (fun x => exists a, x = snd (m a)).
Proof.
  intros w. unfold on_agent. destruct (m (agent w)) as [a' x] eqn:E.
  eexists _, _. split; [reflexivity|]. split; [done|].
  exists (agent w). by rewrite E.
Qed.

Lemma silently_uuid4 : silently uuid4 (fun _ => True).
Proof. intros w. by eexists _, _. Qed.

Lemma silently_datetime_now : silently datetime_now (fun _ => True).
Proof. intros w. by eexists _, _. Qed.

Lemma silently_create_session (uid : option pystr) :
  silently (svc_create_session uid) (fun _ => True).
Proof.
  unfold svc_create_session.
  eapply silently_bind; [apply silently_uuid4|]. intros n _.
  eapply silently_bind; [apply silently_datetime_now|]. intros now _.
  eapply silently_weaken; [apply silently_on_agent|done].
Qed.

Lemma silently_optimize_query (q : pystr) (sid : option pystr) :
  silently (svc_optimize_query q sid) (fun x => x = q).
Proof.
  intros w. destruct (svc_optimize_query_run q sid w) as (w' & E & _ & Hc & _).
  by exists q, w'.
Qed.

(** A bind whose first part is silent continues with its result. *)
Lemma bind_silently_run {A B} (m : M A) (P : A -> Prop) (k : A -> M B)
    (w : World) :
  silently m P ->
  exists a w', P a /\ calls w' = calls w /\ (m ≫= k) w = k a w'.
Proof.
  intros Hm. destruct (Hm w) as (a & w1 & E & Hc & Ha).
  exists a, w1. cbv [mbind M_bind]. by rewrite E.
Qed.

Ltac chat_step lem :=
  match goal with
  | |- context [mbind ?k ?m ?w] =>
      let a := fresh "a" in
      let w' := fresh "w" in
      let Ha := fresh "Ha" in
      let Hc := fresh "Hc" in
      let E := fresh "E" in
      destruct (bind_silently_run m _ k w lem) as (a & w' & Ha & Hc & E);
      rewrite E; clear E; cbv beta
  end.

(** The steps of [agent_chat] up to the tool call make no call on a
    collaborator, and the optimised query is the query. *)
Lemma agent_chat_prefix (bi : Builtins) (search_svc : SearchService)
    (message : ChatMessage.t) (w : World) :
  exists session_id w1,
    calls w1 = calls w
    /\ agent_chat bi search_svc message w =
       (let q := ChatMessage.query message in
        let intent := intent (detect_intent bi q) in
        results ← chat_results search_svc intent q message;
        suggestions ← lift (generate_suggestions intent (PyDict results));
        now ← datetime_now;
        mret {| ChatResponse.session_id := session_id;
                ChatResponse.answer :=
                  generate_response bi intent (PyDict results) q;
                ChatResponse.intent := intent;
                ChatResponse.optimized_query := q;
                ChatResponse.results := Some results;
                ChatResponse.suggestions := suggestions;
                ChatResponse.timestamp := isoformat bi now |}) w1.
Proof.
  unfold agent_chat.
  chat_step (silently_read_agent is_initialized).
  assert (Hinit : silently
            (if negb a then on_agent (fun a => (initialize a, tt)) else mret tt)
            (fun _ => True)).
  { destruct a; simpl.
    - by apply silently_ret.
    - eapply silently_weaken; [apply silently_on_agent|done]. }
  chat_step Hinit.
  assert (Hsid : silently
            (match ChatMessage.session_id message with
             | Some ((_ :: _) as sid) => mret sid
             | _ => svc_create_session None
             end) (fun _ => True)).
  { destruct (ChatMessage.session_id message) as [[|c s]|];
      try apply silently_create_session. by apply silently_ret. }
  chat_step Hsid.
  chat_step (silently_read_agent (fun a => get_session a a1)).
  assert (Hsid2 : silently
            (match a2 with
             | Some _ => mret a1
             | None => svc_create_session None
             end) (fun _ => True)).
  { destruct a2; [by apply silently_ret|apply silently_create_session]. }
  chat_step Hsid2.
  chat_step (silently_optimize_query (ChatMessage.query message) (Some a3)).
  subst a4. exists a3, w5. split; [congruence|reflexivity].
Qed.

(** ** The chat route *)

(** C7.  When the lower-cased query holds a delete keyword, the classifier
    gives [delete] and the chat route returns, without raising, a response
    with that intent whose results are the single entry [message], a
    non-empty text naming the [/agent/execute] route; the route makes no call
    on any collaborator, so nothing is deleted. *)
Theorem chat_delete_redirects (bi : Builtins) (search_svc : SearchService)
    (message : ChatMessage.t) (w : World) :
  has_keyword delete_keywords (str_lower bi (ChatMessage.query message)) ->
  intent (detect_intent bi (ChatMessage.query message)) = u "delete"
  /\ exists resp w',
       agent_chat bi search_svc message w = (inr resp, w')
       /\ ChatResponse.intent resp = u "delete"
       /\ ChatResponse.results resp =
            Some [(u "message", PyStr delete_redirect)]
       /\ delete_redirect <> []
       /\ substring (u "/agent/execute") delete_redirect
       /\ calls w' = calls w.
Proof.
  intros Hkw.
  pose proof (f_equal intent (detect_intent_delete bi _ Hkw)) as Hi.
  cbn [intent] in Hi. split; [exact Hi|].
  destruct (agent_chat_prefix bi search_svc message w) as (sid & w1 & Hc & ->).
  cbv zeta. rewrite Hi.
  assert (Hres : chat_results search_svc (u "delete")
                   (ChatMessage.query message) message
                 = mret [(u "message", PyStr delete_redirect)]).
  { unfold chat_results.
    rewrite decide_False by (by vm_compute).
    rewrite decide_True by reflexivity. unfold delete_redirect.
    reflexivity. }
  rewrite Hres.
  assert (Hsug : forall v, generate_suggestions (u "delete") v = inr []).
  { intros v. unfold generate_suggestions.
    by rewrite decide_False by (by vm_compute). }
  eexists _, _. split.
  { cbv [mbind M_bind mret M_ret lift datetime_now]. rewrite Hsug.
    reflexivity. }
  simpl. refine (conj eq_refl (conj eq_refl (conj _ (conj _ Hc)))).
  - by vm_compute.
  - apply substring_of_test. by vm_compute.
Qed.

Lemma chat_delete_redirects_witness :
  exists resp w',
    agent_chat ascii_builtins
      {| search_is_initialized := false;
         search := fun _ _ _ _ _ => inl (RuntimeError []);
         search_by_text := fun _ _ _ => inl (RuntimeError []) |}
      {| ChatMessage.query := u "删除这张照片";
         ChatMessage.session_id := None;
         ChatMessage.top_k := 10;
         ChatMessage.score_threshold := None |}
      (world_of fresh_service N.of_nat Z.of_nat) = (inr resp, w')
    /\ ChatResponse.intent resp = u "delete"
    /\ ChatResponse.results resp = Some [(u "message", PyStr delete_redirect)]
    /\ calls w' = [].
Proof.
  edestruct (chat_delete_redirects ascii_builtins) as
    (_ & resp & w' & E & Hi & Hr & _ & _ & Hc).
  - apply any_in_has_keyword.
    instantiate (1 := {| ChatMessage.query := u "删除这张照片";
                         ChatMessage.session_id := None;
                         ChatMessage.top_k := 10;
                         ChatMessage.score_threshold := None |}).
    by vm_compute.
  - exists resp, w'. split; [exact E|]. split; [exact Hi|].
    split; [exact Hr|exact Hc].
Defined.

Lemma dict_get_head (k : pystr) (v : pyvalue) (d : pydict) :
  dict_get ((k, v) :: d) k = Some v.
Proof. simpl. by rewrite decide_True. Qed.

Lemma generate_suggestions_search_int (d : pydict) (t : Z) :
  dict_get d (u "total") = Some (PyInt t) ->
  exists l, generate_suggestions (u "search") (PyDict d) = inr l.
Proof.
  intros Ht. rewrite generate_suggestions_search_dict.
  rewrite (dict_get_default_Some _ _ _ _ Ht). cbn [py_eq_int py_gt_int].
  destruct (t =? 0); [by eexists|]. destruct (10 <? t); by eexists.
Qed.

(** C8.  On a chat turn whose intent is [search]: when the search service is
    not initialised the route raises [HTTPException] with status 503 and has
    made no call on a collaborator; otherwise it makes exactly one call,
    [search_by_text] with the query (which is the optimised query), the
    requested [top_k] and the optional [score_threshold], and when that call
    returns a list the response carries the results [total], the length of
    the list, and [images], the list itself in its order; an exception of the
    call is passed on. *)
Theorem chat_search_dispatch (bi : Builtins) (search_svc : SearchService)
    (message : ChatMessage.t) (w : World) :
  intent (detect_intent bi (ChatMessage.query message)) = u "search" ->
  let q := ChatMessage.query message in
  let top_k := ChatMessage.top_k message in
  let score_threshold := ChatMessage.score_threshold message in
  (search_is_initialized search_svc = false ->
     exists w',
       agent_chat bi search_svc message w =
         (inl (HTTPException 503 (u "搜索服务未初始化")), w')
       /\ calls w' = calls w)
  /\ (search_is_initialized search_svc = true ->
       calls (snd (agent_chat bi search_svc message w)) =
         calls w ++ [CallSearchByText q top_k score_threshold]
       /\ (forall images,
             search_by_text search_svc q top_k score_threshold = inr images ->
             exists resp,
               fst (agent_chat bi search_svc message w) = inr resp
               /\ ChatResponse.intent resp = u "search"
               /\ ChatResponse.optimized_query resp = q
               /\ ChatResponse.results resp =
                    Some [(u "total", PyInt (Z.of_nat (length images)));
                          (u "images", PyList images)])
       /\ (forall e,
             search_by_text search_svc q top_k score_threshold = inl e ->
             fst (agent_chat bi search_svc message w) = inl e)).
Proof.
  intros Hi q top_k score_threshold.
  destruct (agent_chat_prefix bi search_svc message w) as (sid & w1 & Hc & ->).
  cbv zeta. rewrite Hi. fold q. unfold chat_results.
  rewrite decide_True by done. fold top_k score_threshold.
  split; intros Hready; rewrite Hready; cbn [negb].
  - exists w1. split; [reflexivity|exact Hc].
  - cbv [mbind M_bind invoke].
    destruct (search_by_text search_svc q top_k score_threshold)
      as [e|images] eqn:Es.
    + cbn [snd calls fst]. rewrite Hc.
      split; [done|]. split; [by intros images [=]|by intros e' [= <-]].
    + cbv [mret M_ret lift].
      destruct (generate_suggestions_search_int
                  [(u "total", PyInt (Z.of_nat (length images)));
                   (u "images", PyList images)]
                  (Z.of_nat (length images)) (dict_get_head _ _ _))
        as [l ->].
      cbv [datetime_now]. cbn [snd calls fst]. rewrite Hc.
      split; [done|]. split; [|by intros e [=]].
      intros images' [= <-]. eexists. split; [reflexivity|]. done.
Qed.

Lemma chat_search_dispatch_witness :
  let svc := {| search_is_initialized := true;
                search := fun _ _ _ _ _ => inl (RuntimeError []);
                search_by_text := fun q k _ => inr [PyStr q; PyInt k] |} in
  let message := {| ChatMessage.query := u "我昨天拍的小狗照片";
                    ChatMessage.session_id := None;
                    ChatMessage.top_k := 5;
                    ChatMessage.score_threshold := None |} in
  let w := world_of fresh_service N.of_nat Z.of_nat in
  calls (snd (agent_chat ascii_builtins svc message w)) =
    [CallSearchByText (u "我昨天拍的小狗照片") 5 None]
  /\ exists resp,
       fst (agent_chat ascii_builtins svc message w) = inr resp
       /\ ChatResponse.results resp =
            Some [(u "total", PyInt 2);
                  (u "images", PyList [PyStr (u "我昨天拍的小狗照片"); PyInt 5])].
Proof.
  intros svc message w.
  assert (Hi : intent (detect_intent ascii_builtins (ChatMessage.query message))
               = u "search") by (by vm_compute).
  destruct (chat_search_dispatch ascii_builtins svc message w Hi)
    as [_ Hready].
  destruct (Hready eq_refl) as (Hcalls & Hok & _).
  split.
  { etrans; [exact Hcalls|]. by vm_compute. }
  assert (Es : search_by_text svc (ChatMessage.query message)
                 (ChatMessage.top_k message)
                 (ChatMessage.score_threshold message)
               = inr [PyStr (u "我昨天拍的小狗照片"); PyInt 5])
    by reflexivity.
  destruct (Hok _ Es) as (resp & E & _ & _ & Hr).
  exists resp. split; [exact E|].
  etrans; [exact Hr|]. by vm_compute.
Defined.

(** ** Direct execution: delete and update *)

Lemma execute_delete_no_id (self : AgentInterface) (params : pydict)
    (w : World) :
  truthy (dict_get_default params (u "image_id") PyNone) = false ->
  _execute_delete self params w =
    (inl (ValueError (u "必须提供image_id")), w).
Proof. intros H. unfold _execute_delete. by rewrite H. Qed.

Lemma execute_update_no_id (self : AgentInterface) (params : pydict)
    (w : World) :
  truthy (dict_get_default params (u "image_id") PyNone) = false ->
  _execute_update self params w =
    (inl (ValueError (u "必须提供image_id")), w).
Proof. intros H. unfold _execute_update. by rewrite H. Qed.

(** An exception of the vector index is not caught: it leaves the handler
    after the file has been deleted. *)
Lemma execute_delete_vector_raises (self : AgentInterface) (params : pydict)
    (w : World) (image_id : pyvalue) (file_deleted : bool) (e : exn) :
  dict_get params (u "image_id") = Some image_id ->
  truthy image_id = true ->
  delete_image (storage_service self) image_id = inr file_deleted ->
  vector_is_initialized (vector_db_service self) = true ->
  vector_delete (vector_db_service self) image_id = inl e ->
  fst (_execute_delete self params w) = inl e
  /\ calls (snd (_execute_delete self params w)) =
       calls w ++ [CallDeleteImage image_id; CallVectorDelete image_id].
Proof.
  intros Hid Ht Hfile Hinit Hvec. unfold _execute_delete.
  rewrite (dict_get_default_Some _ _ _ _ Hid), Ht. cbn [negb].
  cbv [mbind M_bind invoke]. rewrite Hfile, Hinit, Hvec.
  cbn [fst snd calls]. by rewrite <- app_assoc.
Qed.

(** C4.  A direct delete with an [image_id] that the guard accepts calls the storage service
    and, only when the vector index is initialised, the vector index.  When
    both calls return, the result reports each outcome on its own and its
    [success] is the outcome of the file deletion alone; with the file
    deleted and the vector entry not deleted (the index returned [False] or
    was skipped as uninitialised), [success] is [True], [file_deleted] is
    [True] and [vector_deleted] is [False]. *)
Theorem delete_success_is_file_outcome (self : AgentInterface)
    (params : pydict) (w : World) (image_id : pyvalue)
    (file_deleted vector_deleted : bool) :
  dict_get params (u "image_id") = Some image_id ->
  truthy image_id = true ->
  delete_image (storage_service self) image_id = inr file_deleted ->
  (if vector_is_initialized (vector_db_service self)
   then vector_delete (vector_db_service self) image_id = inr vector_deleted
   else vector_deleted = false) ->
  exists result w',
    _execute_delete self params w = (inr result, w')
    /\ dict_get result (u "success") = Some (PyBool file_deleted)
    /\ dict_get result (u "result") =
         Some (PyDict [(u "file_deleted", PyBool file_deleted);
                       (u "vector_deleted", PyBool vector_deleted)])
    /\ calls w' =
         calls w ++ CallDeleteImage image_id ::
           (if vector_is_initialized (vector_db_service self)
            then [CallVectorDelete image_id] else [])
    /\ (file_deleted = true -> vector_deleted = false ->
          result =
            [(u "success", PyBool true);
             (u "action", PyStr (u "delete"));
             (u "result", PyDict [(u "file_deleted", PyBool true);
                                  (u "vector_deleted", PyBool false)]);
             (u "message", PyStr (u "图片已删除"))]).
Proof.
  intros Hid Ht Hfile Hvec. unfold _execute_delete.
  rewrite (dict_get_default_Some _ _ _ _ Hid), Ht. cbn [negb].
  cbv [mbind M_bind invoke]. rewrite Hfile.
  destruct (vector_is_initialized (vector_db_service self)).
  - rewrite Hvec. eexists _, _. split; [reflexivity|].
    cbn [calls]. rewrite <- app_assoc.
    refine (conj _ (conj _ (conj eq_refl _))); [by vm_compute..|].
    by intros -> ->.
  - subst vector_deleted. eexists _, _. split; [reflexivity|].
    cbn [calls].
    refine (conj _ (conj _ (conj eq_refl _))); [by vm_compute..|].
    by intros -> _.
Qed.

Lemma delete_success_is_file_outcome_witness :
  let self :=
    {| search_service :=
         {| search_is_initialized := false;
            search := fun _ _ _ _ _ => inl (RuntimeError []);
            search_by_text := fun _ _ _ => inl (RuntimeError []) |};
       storage_service :=
         {| storage_is_initialized := true;
            delete_image := fun _ => inr true |};
       vector_db_service :=
         {| vector_is_initialized := true;
            vector_delete := fun _ => inr false;
            update_metadata := fun _ _ => inr false |} |} in
  exists result w',
    _execute_delete self [(u "image_id", PyStr (u "img_abc123"))]
      (world_of fresh_service N.of_nat Z.of_nat) = (inr result, w')
    /\ dict_get result (u "success") = Some (PyBool true)
    /\ dict_get result (u "result") =
         Some (PyDict [(u "file_deleted", PyBool true);
                       (u "vector_deleted", PyBool false)])
    /\ calls w' = [CallDeleteImage (PyStr (u "img_abc123"));
                   CallVectorDelete (PyStr (u "img_abc123"))].
Proof.
  intros self.
  destruct (delete_success_is_file_outcome self
              [(u "image_id", PyStr (u "img_abc123"))]
              (world_of fresh_service N.of_nat Z.of_nat)
              (PyStr (u "img_abc123")) true false
              eq_refl eq_refl eq_refl eq_refl)
    as (result & w' & E & Hs & Hr & Hc & _).
  exists result, w'. split; [exact E|]. split; [exact Hs|].
  split; [exact Hr|exact Hc].
Defined.

(** C5.  A direct delete or update whose parameters hold no [image_id]
    raises [ValueError] and leaves the world as it was, so no collaborator
    was called; the same holds through [execute_action].  An update with an
    [image_id] that the guard accepts and neither [tags] nor [description] among its
    parameters returns [success] = [False] with the message that nothing was
    given to update, again in an unchanged world.  (An [image_id] that is
    there but false as a truth value, such as [None] or the empty string, is
    rejected like a missing one.) *)
Theorem missing_image_id_is_rejected (bi : Builtins) (self : AgentInterface)
    (params : pydict) (w : World) :
  dict_get params (u "image_id") = None ->
  _execute_delete self params w =
    (inl (ValueError (u "必须提供image_id")), w)
  /\ _execute_update self params w =
    (inl (ValueError (u "必须提供image_id")), w)
  /\ execute_action bi self DELETE params w =
    (inl (ValueError (u "必须提供image_id")), w)
  /\ execute_action bi self UPDATE params w =
    (inl (ValueError (u "必须提供image_id")), w)
  /\ (forall params' image_id,
        dict_get params' (u "image_id") = Some image_id ->
        truthy image_id = true ->
        dict_get params' (u "tags") = None ->
        dict_get params' (u "description") = None ->
        _execute_update self params' w =
          (inr [(u "success", PyBool false);
                (u "action", PyStr (u "update"));
                (u "message", PyStr (u "未提供任何更新内容"))], w))
  /\ (forall params' image_id,
        dict_get params' (u "image_id") = Some image_id ->
        truthy image_id = false ->
        _execute_delete self params' w =
          (inl (ValueError (u "必须提供image_id")), w)
        /\ _execute_update self params' w =
          (inl (ValueError (u "必须提供image_id")), w)).
Proof.
  intros Hno.
  assert (Hf : truthy (dict_get_default params (u "image_id") PyNone) = false)
    by (by rewrite (dict_get_default_None _ _ _ Hno)).
  refine (conj _ (conj _ (conj _ (conj _ (conj _ _))))).
  - by apply execute_delete_no_id.
  - by apply execute_update_no_id.
  - by apply execute_delete_no_id.
  - by apply execute_update_no_id.
  - intros params' image_id Hid Ht Htags Hdesc. unfold _execute_update.
    rewrite (dict_get_default_Some _ _ _ _ Hid), Ht, Htags, Hdesc.
    reflexivity.
  - intros params' image_id Hid Ht.
    split; [apply execute_delete_no_id|apply execute_update_no_id];
      by rewrite (dict_get_default_Some _ _ _ _ Hid).
Qed.

Lemma missing_image_id_is_rejected_witness :
  let self :=
    {| search_service :=
         {| search_is_initialized := true;
            search := fun _ _ _ _ _ => inr PyNone;
            search_by_text := fun _ _ _ => inr [] |};
       storage_service :=
         {| storage_is_initialized := true;
            delete_image := fun _ => inr true |};
       vector_db_service :=
         {| vector_is_initialized := true;
            vector_delete := fun _ => inr true;
            update_metadata := fun _ _ => inr true |} |} in
  let w := world_of fresh_service N.of_nat Z.of_nat in
  _execute_delete self [(u "tags", PyList [])] w =
    (inl (ValueError (u "必须提供image_id")), w)
  /\ _execute_update self [(u "image_id", PyStr (u "img_abc123"))] w =
    (inr [(u "success", PyBool false);
          (u "action", PyStr (u "update"));
          (u "message", PyStr (u "未提供任何更新内容"))], w).
Proof.
  intros self w.
  destruct (missing_image_id_is_rejected ascii_builtins self
              [(u "tags", PyList [])] w eq_refl)
    as (Hd & _ & _ & _ & Hu & _).
  split; [exact Hd|].
  exact (Hu [(u "image_id", PyStr (u "img_abc123"))] (PyStr (u "img_abc123"))
           eq_refl eq_refl eq_refl eq_refl).
Defined.

(** * Further properties of the service *)

(** X1.  [initialize] marks the service initialised and touches nothing else:
    every session id resolves as before.  Calling it again, or calling it on
    a service that is already initialised, changes nothing. *)
Theorem initialize_idempotent (a : AgentService) :
  is_initialized (initialize a) = true
  /\ _sessions (initialize a) = _sessions a
  /\ _llm_client (initialize a) = _llm_client a
  /\ initialize (initialize a) = initialize a
  /\ (if is_initialized a then initialize a = a else initialize a <> a).
Proof.
  unfold initialize, is_initialized.
  destruct a as [[] ss llm]; cbn; repeat split; congruence.
Qed.

(** X2.  [create_session] followed by [get_session] on the returned id gives
    the new session: the given user, the clock reading, an empty history and
    an empty context.  The id is 36 characters long, every other id resolves
    as before, and the initialised flag is kept. *)
Theorem create_then_get (a : AgentService) (uid : option pystr) (n : N)
    (now : datetime) :
  let a' := fst (create_session a uid n now) in
  let sid := snd (create_session a uid n now) in
  get_session a' sid =
    Some {| user_id := uid; created_at := now; history := []; context := [] |}
  /\ length sid = 36%nat
  /\ (forall sid', sid' <> sid -> get_session a' sid' = get_session a sid')
  /\ is_initialized a' = is_initialized a.
Proof.
  intros a' sid. subst a' sid. rewrite create_session_returns.
  refine (conj (create_session_same_uuid _ _ _ _)
            (conj (length_uuid_str n) (conj _ eq_refl))).
  intros sid' Hne. rewrite get_session_create. by rewrite decide_False.
Qed.

Lemma optimize_query_flag (a : AgentService) q sid now :
  _initialized (fst (optimize_query a q sid now)) = _initialized a.
Proof.
  unfold optimize_query. destruct sid as [[|c s]|]; try done.
  by destruct (get_session a (c :: s)).
Qed.

Lemma optimize_query_lookup (a : AgentService) q sid now (sid' : pystr) :
  get_session (fst (optimize_query a q sid now)) sid' = get_session a sid'
  \/ (sid = Some sid' /\ sid' <> []
      /\ exists x, get_session a sid' = Some x
           /\ get_session (fst (optimize_query a q sid now)) sid'
              = Some (history_append (optimize_event q now) x)).
Proof.
  destruct sid as [[|c s]|]; try by left.
  destruct (get_session a (c :: s)) as [x|] eqn:E.
  - assert (Hne : c :: s <> []) by done.
    rewrite (optimize_query_hit _ _ _ _ _ Hne E).
    case_decide as Hs; [|by left]. subst sid'. right.
    split; [done|]. split; [done|]. by exists x.
  - left. by rewrite optimize_query_miss by (by intros ? [= <-] _).
Qed.

(** X3.  [optimize_query] never creates and never removes a session, in any
    state of the service: an id resolves afterwards exactly when it did
    before.  A session keeps its user, creation time and context, and its
    history is either unchanged or longer by the one recorded event. *)
Theorem optimize_query_keeps_sessions (a : AgentService) (q : pystr)
    (sid : option pystr) (now : datetime) :
  let a' := fst (optimize_query a q sid now) in
  is_initialized a' = is_initialized a
  /\ dom (_sessions a') = dom (_sessions a)
  /\ (forall sid', is_Some (get_session a' sid')
                   <-> is_Some (get_session a sid'))
  /\ (forall sid' x', get_session a' sid' = Some x' ->
        exists x, get_session a sid' = Some x
          /\ user_id x' = user_id x /\ created_at x' = created_at x
          /\ context x' = context x
          /\ (history x' = history x
              \/ history x' = history x ++ [optimize_event q now])).
Proof.
  intros a'. subst a'.
  assert (Hsome : forall sid', is_Some (get_session
                      (fst (optimize_query a q sid now)) sid')
                    <-> is_Some (get_session a sid')).
  { intros sid'.
    destruct (optimize_query_lookup a q sid now sid')
      as [->|(_ & _ & x & -> & ->)]; [done|]. split; by eexists. }
  refine (conj (optimize_query_flag _ _ _ _) (conj _ (conj Hsome _))).
  - apply set_eq. intros sid'. rewrite !elem_of_dom. apply Hsome.
  - intros sid' x' Hx'.
    destruct (optimize_query_lookup a q sid now sid')
      as [E|(_ & _ & x & Ex & E)]; rewrite E in Hx'.
    + exists x'. by repeat split; try left.
    + injection Hx' as <-. exists x. by repeat split; try right.
Qed.

(** X4.  Every reachable store is well formed: each session id is a
    36-character string, each context is empty, and each history holds only
    [query_optimize] events whose optimised query equals the original. *)
Theorem reachable_store_well_formed (a : AgentService) :
  reachable a -> store_well_formed a.
Proof.
  induction 1 as [|a _ IH|a uid n now _ IH|a q sid now _ IH];
    intros sid' s Hs.
  - done.
  - apply IH. unfold initialize in Hs. by destruct (_initialized a).
  - rewrite get_session_create in Hs. case_decide as E.
    + subst sid'. injection Hs as <-.
      split; [apply (length_uuid_str n)|]. cbn [context history].
      split; [done|constructor].
    + by apply IH.
  - destruct (optimize_query_lookup a q sid now sid')
      as [E|(_ & _ & x & Ex & E)]; rewrite E in Hs.
    + by apply IH.
    + injection Hs as <-. destruct (IH _ _ Ex) as (Hl & Hc & Hh).
      split; [done|]. split; [done|]. simpl.
      apply Forall_app. split; [done|]. by repeat constructor.
Qed.

Lemma reachable_store_well_formed_witness :
  store_well_formed
    (fst (optimize_query (fst (create_session fresh_service None 7 1000))
            (u "小狗") (Some (uuid_str 7)) 2000)).
Proof.
  apply reachable_store_well_formed.
  apply reach_optimize, reach_create, reach_fresh.
Defined.

(** X5.  Edge cases of [generate_response] for the intent [search].  A result
    dict without [total] is answered like no match.  Every integer total
    other than 0 and 1, negative ones included, gets the plural sentence
    with its decimal digits.  The total [True] counts as one match.  A
    result that is not a dict gets the generic sentence, as does every
    intent outside search, delete, upload and analyze. *)
Theorem generate_response_edges (bi : Builtins) (q : pystr) :
  (forall d, dict_get d (u "total") = None ->
     generate_response bi (u "search") (PyDict d) q =
       u "抱歉，没有找到与「" ++ q ++ u "」相关的照片。可以尝试换个描述方式。")
  /\ (forall d t, dict_get d (u "total") = Some (PyInt t) ->
        t <> 0 -> t <> 1 ->
        generate_response bi (u "search") (PyDict d) q =
          u "为您找到了 " ++ str_of_int t ++ u " 张与「" ++ q
            ++ u "」相关的照片。")
  /\ (forall d, dict_get d (u "total") = Some (PyBool true) ->
        generate_response bi (u "search") (PyDict d) q =
          u "找到 1 张符合「" ++ q ++ u "」的照片。")
  /\ (forall v, (forall d, v <> PyDict d) ->
        generate_response bi (u "search") v q = u "已完成您的请求。")
  /\ (forall i v, i <> u "search" -> i <> u "delete" -> i <> u "upload" ->
        i <> u "analyze" ->
        generate_response bi i v q = u "已完成您的请求。").
Proof.
  refine (conj _ (conj _ (conj _ (conj _ _)))).
  - intros d Hd. rewrite generate_response_search_dict.
    by rewrite (dict_get_default_None _ _ _ Hd).
  - intros d t Hd H0 H1. rewrite generate_response_search_dict.
    rewrite (dict_get_default_Some _ _ _ _ Hd). cbn [py_eq_int py_format].
    destruct (Z.eqb_spec t 0); [done|]. by destruct (Z.eqb_spec t 1).
  - intros d Hd. rewrite generate_response_search_dict.
    by rewrite (dict_get_default_Some _ _ _ _ Hd).
  - intros v Hv. unfold generate_response. rewrite decide_True by done.
    destruct v; try done. by destruct (Hv d).
  - intros i v Hs Hd Hu Ha. unfold generate_response.
    by rewrite !decide_False.
Qed.

Lemma generate_response_edges_witness :
  generate_response ascii_builtins (u "search")
    (PyDict [(u "total", PyInt (-3))]) (u "小狗")
  = u "为您找到了 -3 张与「小狗」相关的照片。".
Proof.
  destruct (generate_response_edges ascii_builtins (u "小狗"))
    as (_ & H & _).
  etrans; [apply (H [(u "total", PyInt (-3))] (-3)); [reflexivity|lia..]|].
  by vm_compute.
Defined.

(** X6.  [generate_suggestions] for the intent [search] raises [TypeError]
    on a result dict whose total is [None], a string, a list or a dict: such
    a total is not equal to 0, and [total > 10] raises.  A dict without
    [total] gets the three suggestions for no match, and so does the total
    [False]. *)
Theorem generate_suggestions_type_error (d : pydict) :
  (forall v, dict_get d (u "total") = Some v -> none_str_list_or_dict v ->
     generate_suggestions (u "search") (PyDict d) = inl TypeError)
  /\ (dict_get d (u "total") = None
      \/ dict_get d (u "total") = Some (PyBool false) ->
      generate_suggestions (u "search") (PyDict d) =
        inr [u "换个描述试试"; u "查看所有照片"; u "按日期筛选"]).
Proof.
  split.
  - intros v Hd Hv. rewrite generate_suggestions_search_dict.
    rewrite (dict_get_default_Some _ _ _ _ Hd). by destruct v.
  - intros [Hd|Hd]; rewrite generate_suggestions_search_dict.
    + by rewrite (dict_get_default_None _ _ _ Hd).
    + by rewrite (dict_get_default_Some _ _ _ _ Hd).
Qed.

Lemma generate_suggestions_type_error_witness :
  generate_suggestions (u "search") (PyDict [(u "total", PyStr (u "12"))])
  = inl TypeError.
Proof.
  destruct (generate_suggestions_type_error [(u "total", PyStr (u "12"))])
    as [H _].
  exact (H (PyStr (u "12")) eq_refl I).
Defined.

(** * Further properties of the direct-execution surface *)

Lemma direct_suggestions_unsuccessful (action : AgentAction) (result : pydict) :
  truthy (dict_get_default result (u "success") PyNone) = false ->
  _generate_suggestions action result = inr [].
Proof.
  intros H. unfold _generate_suggestions. rewrite H. by destruct action.
Qed.

(** X7.  Edge cases of [_generate_suggestions] for a successful search
    result.  Without a [result] entry the empty dict stands in, the total
    defaults to 0, and the two suggestions for no match are given.  A
    [result] entry that is [None], a [bool], an [int], a string or a list
    raises [AttributeError] (none of them has [.get]); a total that is
    [None], a string, a list or a dict raises [TypeError]. *)
Theorem direct_suggestions_edges (result : pydict) :
  truthy (dict_get_default result (u "success") PyNone) = true ->
  (dict_get result (u "result") = None ->
     _generate_suggestions SEARCH result =
       inr [u "尝试使用不同的关键词搜索"; u "检查是否有相关标签可以过滤"])
  /\ (forall v, dict_get result (u "result") = Some v ->
        (forall r, v <> PyDict r) ->
        _generate_suggestions SEARCH result = inl AttributeError)
  /\ (forall r v, dict_get result (u "result") = Some (PyDict r) ->
        dict_get r (u "total") = Some v -> none_str_list_or_dict v ->
        _generate_suggestions SEARCH result = inl TypeError).
Proof.
  intros Hs. unfold _generate_suggestions. rewrite Hs.
  refine (conj _ (conj _ _)).
  - intros Hr. by rewrite (dict_get_default_None _ _ _ Hr).
  - intros v Hr Hv. rewrite (dict_get_default_Some _ _ _ _ Hr).
    destruct v; try done. by destruct (Hv d).
  - intros r v Hr Ht Hv. rewrite (dict_get_default_Some _ _ _ _ Hr).
    rewrite (dict_get_default_Some _ _ _ _ Ht). by destruct v.
Qed.

Lemma direct_suggestions_edges_witness :
  _generate_suggestions SEARCH
    [(u "success", PyBool true); (u "result", PyNone)] = inl AttributeError.
Proof.
  destruct (direct_suggestions_edges
              [(u "success", PyBool true); (u "result", PyNone)] eq_refl)
    as (_ & H & _).
  by apply (H PyNone eq_refl).
Defined.

(** X8.  [_execute_search] refuses to run on an uninitialised search service:
    it raises [RuntimeError] without calling it.  Otherwise it makes exactly
    one [search] call, passing the five parameters it reads from the map
    ([top_k] defaults to 10, the others to [None]).  An exception of the call
    is passed on; an answer that is not a dict raises [TypeError] and a dict
    without [total] raises [KeyError]; otherwise the result reports success
    and its message quotes the total. *)
Theorem execute_search_behaviour (bi : Builtins) (self : AgentInterface)
    (params : pydict) (w : World) :
  let query_text := dict_get_default params (u "query_text") PyNone in
  let query_image_id := dict_get_default params (u "query_image_id") PyNone in
  let query_image_url := dict_get_default params (u "query_image_url") PyNone in
  let top_k := dict_get_default params (u "top_k") (PyInt 10) in
  let filter_tags := dict_get_default params (u "filter_tags") PyNone in
  let answer := search (search_service self) query_text query_image_id
                  query_image_url top_k filter_tags in
  let run := _execute_search bi self params w in
  (search_is_initialized (search_service self) = false ->
     run = (inl (RuntimeError (u "搜索服务未初始化")), w))
  /\ (search_is_initialized (search_service self) = true ->
       calls (snd run) =
         calls w ++ [CallSearch query_text query_image_id query_image_url
                       top_k filter_tags]
       /\ (forall e, answer = inl e -> fst run = inl e)
       /\ (forall v, answer = inr v -> (forall r, v <> PyDict r) ->
             fst run = inl TypeError)
       /\ (forall r, answer = inr (PyDict r) ->
             dict_get r (u "total") = None ->
             fst run = inl (KeyError (u "total")))
       /\ (forall r t, answer = inr (PyDict r) ->
             dict_get r (u "total") = Some t ->
             fst run =
               inr [(u "success", PyBool true);
                    (u "action", PyStr (u "search"));
                    (u "result", PyDict r);
                    (u "message",
                     PyStr (u "找到 " ++ py_format bi t
                              ++ u " 张相关图片"))])).
Proof.
  intros query_text query_image_id query_image_url top_k filter_tags answer run.
  subst run answer. unfold _execute_search.
  fold query_text query_image_id query_image_url top_k filter_tags.
  split; intros Hready; rewrite Hready; cbn [negb]; [done|].
  cbv [mbind M_bind invoke lift mret M_ret].
  destruct (search (search_service self) query_text query_image_id
              query_image_url top_k filter_tags) as [e|v];
    cbn [fst snd calls].
  - split; [done|]. split; [by intros ? [= <-]|].
    split; [by intros ? [=]|]. split; [by intros ? [=]|by intros ? ? [=]].
  - split.
    { unfold subscript. destruct v; try done.
      by destruct (dict_get d (u "total")). }
    split; [by intros ? [=]|]. split.
    { intros v' [= <-] Hv. destruct v; try done. by destruct (Hv d). }
    split.
    + intros r [= ->] Hr. unfold subscript. by rewrite Hr.
    + intros r t [= ->] Hr. unfold subscript. by rewrite Hr.
Qed.

Lemma execute_search_behaviour_witness :
  fst (_execute_search ascii_builtins
         (sample_interface true true true (PyDict [(u "total", PyInt 3)]))
         [(u "query_text", PyStr (u "小狗"))]
         (world_of fresh_service N.of_nat Z.of_nat))
  = inr [(u "success", PyBool true);
         (u "action", PyStr (u "search"));
         (u "result", PyDict [(u "total", PyInt 3)]);
         (u "message", PyStr (u "找到 3 张相关图片"))].
Proof.
  destruct (execute_search_behaviour ascii_builtins
              (sample_interface true true true (PyDict [(u "total", PyInt 3)]))
              [(u "query_text", PyStr (u "小狗"))]
              (world_of fresh_service N.of_nat Z.of_nat)) as [_ H].
  destruct (H eq_refl) as (_ & _ & _ & _ & Hok).
  etrans; [exact (Hok [(u "total", PyInt 3)] (PyInt 3) eq_refl eq_refl)|].
  by vm_compute.
Defined.

(** X9.  Upload and analyze are answered without looking at the request:
    whatever the parameters, the [/execute] route returns, without raising
    and in an unchanged world (so with no call on a collaborator), a response
    with status [ERROR], the not-implemented message, no result and no
    suggestion. *)
Theorem upload_analyze_not_implemented (bi : Builtins) (self : AgentInterface)
    (params : pydict) (ctx : option pydict) (w : World) :
  execute_agent_action bi self
    {| AgentRequest.action := UPLOAD; AgentRequest.parameters := params;
       AgentRequest.context := ctx |} w
  = (inr {| AgentResponse.status := ERROR;
            AgentResponse.message :=
              PyStr (u "URL上传功能暂未实现，请使用/storage/upload接口");
            AgentResponse.action := UPLOAD;
            AgentResponse.result := PyNone;
            AgentResponse.suggestions := [] |}, w)
  /\ execute_agent_action bi self
    {| AgentRequest.action := ANALYZE; AgentRequest.parameters := params;
       AgentRequest.context := ctx |} w
  = (inr {| AgentResponse.status := ERROR;
            AgentResponse.message :=
              PyStr (u "图片分析功能暂未实现，将在后续版本中支持");
            AgentResponse.action := ANALYZE;
            AgentResponse.result := PyNone;
            AgentResponse.suggestions := [] |}, w).
Proof. split; by vm_compute. Qed.

Lemma dict_set_tags_description (tags description : option pyvalue) :
  match description with
  | Some d =>
      dict_set (match tags with
                | Some t => dict_set [] (u "tags") t
                | None => []
                end) (u "description") d
  | None => match tags with
            | Some t => dict_set [] (u "tags") t
            | None => []
            end
  end
  = match tags with Some t => [(u "tags", t)] | None => [] end
    ++ match description with
       | Some d => [(u "description", d)]
       | None => []
       end.
Proof.
  destruct tags as [t|], description as [d|]; reflexivity.
Qed.

(** X10.  An update with an accepted [image_id] and at least one of [tags]
    and [description] makes exactly one call, [update_metadata], whether or
    not the vector index is initialised.  The metadata passed holds the
    supplied [tags] and [description] entries, in that order, and nothing
    else of the parameter map.  The result's [success] is the answer of the
    call; an exception of the call is passed on. *)
Theorem execute_update_forwards (self : AgentInterface) (params : pydict)
    (w : World) (image_id : pyvalue) :
  dict_get params (u "image_id") = Some image_id ->
  truthy image_id = true ->
  is_Some (dict_get params (u "tags"))
    \/ is_Some (dict_get params (u "description")) ->
  let update_data :=
    match dict_get params (u "tags") with
    | Some t => [(u "tags", t)]
    | None => []
    end
    ++ match dict_get params (u "description") with
       | Some d => [(u "description", d)]
       | None => []
       end in
  let answer := update_metadata (vector_db_service self) image_id update_data in
  let run := _execute_update self params w in
  calls (snd run) = calls w ++ [CallUpdateMetadata image_id update_data]
  /\ (forall e, answer = inl e -> fst run = inl e)
  /\ (forall ok : bool, answer = inr ok ->
        fst run =
          inr [(u "success", PyBool ok);
               (u "action", PyStr (u "update"));
               (u "message",
                PyStr (if ok then u "更新成功" else u "更新失败"))]).
Proof.
  intros Hid Ht Hsome update_data answer run. subst run answer.
  unfold _execute_update.
  rewrite (dict_get_default_Some _ _ _ _ Hid), Ht. cbn [negb]. cbv zeta.
  rewrite (dict_set_tags_description
             (dict_get params (u "tags"))
             (dict_get params (u "description"))).
  fold update_data.
  assert (Hne : truthy (PyDict update_data) = true).
  { subst update_data.
    destruct Hsome as [[t ->]|[d ->]]; [done|].
    by destruct (dict_get params (u "tags")). }
  rewrite Hne. cbn [negb]. cbv [mbind M_bind invoke mret M_ret].
  destruct (update_metadata (vector_db_service self) image_id update_data)
    as [e|ok]; cbn [fst snd calls].
  - split; [done|]. split; [by intros ? [= <-]|by intros ? [=]].
  - split; [done|]. split; [by intros ? [=]|by intros ? [= <-]].
Qed.

Lemma execute_update_forwards_witness :
  let self :=
    {| search_service := offline_search;
       storage_service :=
         {| storage_is_initialized := false;
            delete_image := fun _ => inr false |};
       vector_db_service :=
         {| vector_is_initialized := false;
            vector_delete := fun _ => inr false;
            update_metadata := fun _ _ => inr true |} |} in
  let params := [(u "image_id", PyStr (u "img_abc123"));
                 (u "owner", PyStr (u "me"));
                 (u "description", PyStr (u "小狗"))] in
  calls (snd (_execute_update self params
                (world_of fresh_service N.of_nat Z.of_nat)))
  = [CallUpdateMetadata (PyStr (u "img_abc123"))
       [(u "description", PyStr (u "小狗"))]].
Proof.
  intros self params.
  destruct (execute_update_forwards self params
              (world_of fresh_service N.of_nat Z.of_nat)
              (PyStr (u "img_abc123")) eq_refl eq_refl)
    as (H & _).
  - right. by eexists.
  - etrans; [exact H|]. by vm_compute.
Defined.

(** X11.  The action table against the handlers.  [get_available_actions]
    names the five actions of the dispatcher, each once and in its order.
    It marks [image_url] as required for upload and [image_id] as required
    for delete, update and analyze; of these, only delete and update reject a
    request that lacks the parameter, while upload and analyze return their
    result for the empty parameter map too. *)
Theorem action_table_against_handlers (bi : Builtins) (self : AgentInterface)
    (w : World) :
  omap (fun entry => match dict_get entry (u "action") with
                     | Some (PyStr s) => Some s
                     | _ => None
                     end) get_available_actions
    = action_name <$> [SEARCH; UPLOAD; DELETE; UPDATE; ANALYZE]
  /\ length get_available_actions = 5%nat
  /\ required_parameters <$> get_available_actions
     = [[]; [u "image_url"]; [u "image_id"]; [u "image_id"]; [u "image_id"]]
  /\ fst (execute_action bi self DELETE [] w)
     = inl (ValueError (u "必须提供image_id"))
  /\ fst (execute_action bi self UPDATE [] w)
     = inl (ValueError (u "必须提供image_id"))
  /\ (exists r, fst (execute_action bi self UPLOAD [] w) = inr r)
  /\ (exists r, fst (execute_action bi self ANALYZE [] w) = inr r).
Proof.
  refine (conj _ (conj _ (conj _ (conj _ (conj _ (conj _ _)))))).
  - by vm_compute.
  - done.
  - by vm_compute.
  - done.
  - done.
  - by eexists.
  - by eexists.
Qed.

Lemma execute_delete_shape (self : AgentInterface) (params : pydict)
    (w w' : World) (result : pydict) :
  _execute_delete self params w = (inr result, w') ->
  exists (fd vd : bool),
    result = [(u "success", PyBool fd);
              (u "action", PyStr (u "delete"));
              (u "result", PyDict [(u "file_deleted", PyBool fd);
                                   (u "vector_deleted", PyBool vd)]);
              (u "message",
               PyStr (if fd then u "图片已删除" else u "图片不存在"))].
Proof.
  unfold _execute_delete.
  destruct (truthy (dict_get_default params (u "image_id") PyNone));
    cbn [negb]; [|done].
  cbv [mbind M_bind invoke mret M_ret].
  destruct (delete_image _ _) as [e|fd]; [done|].
  destruct (vector_is_initialized _).
  - destruct (vector_delete _ _) as [e|vd]; [done|].
    intros [= <- _]. by exists fd, vd.
  - intros [= <- _]. by exists fd, false.
Qed.

Lemma execute_update_shape (self : AgentInterface) (params : pydict)
    (w w' : World) (result : pydict) :
  _execute_update self params w = (inr result, w') ->
  exists (ok : bool) (m : pystr),
    result = [(u "success", PyBool ok);
              (u "action", PyStr (u "update"));
              (u "message", PyStr m)].
Proof.
  unfold _execute_update.
  destruct (truthy (dict_get_default params (u "image_id") PyNone));
    cbn [negb]; [|done].
  cbv zeta. destruct (truthy (PyDict _)); cbn [negb].
  - cbv [mbind M_bind invoke mret M_ret].
    destruct (update_metadata _ _ _) as [e|ok]; [done|].
    intros [= <- _]. by eexists ok, _.
  - intros [= <- _]. by eexists false, _.
Qed.

Lemma execute_search_shape (bi : Builtins) (self : AgentInterface)
    (params : pydict) (w w' : World) (result : pydict) :
  _execute_search bi self params w = (inr result, w') ->
  exists (found : pyvalue) (m : pystr),
    result = [(u "success", PyBool true);
              (u "action", PyStr (u "search"));
              (u "result", found);
              (u "message", PyStr m)].
Proof.
  unfold _execute_search.
  destruct (search_is_initialized _); cbn [negb]; [|done].
  cbv [mbind M_bind invoke lift mret M_ret].
  destruct (search _ _ _ _ _ _) as [e|found]; [done|].
  destruct (subscript found (u "total")) as [e|t]; [done|].
  intros [= <- _]. by eexists found, _.
Qed.

Lemma execute_action_shape_success (bi : Builtins) (self : AgentInterface)
    (action : AgentAction) (params : pydict) (w w' : World)
    (result : pydict) :
  execute_action bi self action params w = (inr result, w') ->
  exists b, dict_get result (u "success") = Some (PyBool b).
Proof.
  destruct action; cbn [execute_action]; intros H.
  - apply execute_search_shape in H as (found & m & ->). by eexists.
  - injection H as <- _. by eexists.
  - apply execute_delete_shape in H as (fd & vd & ->). by eexists.
  - apply execute_update_shape in H as (ok & m & ->). by eexists.
  - injection H as <- _. by eexists.
Qed.

(** X12.  Every result [execute_action] returns has the same shape: [success]
    is a [bool], [action] is the name of the action that was asked for and
    [message] is a string.  A [result] entry is there exactly for search and
    delete. *)
Theorem execute_action_result_shape (bi : Builtins) (self : AgentInterface)
    (action : AgentAction) (params : pydict) (w w' : World)
    (result : pydict) :
  execute_action bi self action params w = (inr result, w') ->
  dict_get result (u "action") = Some (PyStr (action_name action))
  /\ (exists b, dict_get result (u "success") = Some (PyBool b))
  /\ (exists m, dict_get result (u "message") = Some (PyStr m))
  /\ (is_Some (dict_get result (u "result"))
      <-> action = SEARCH \/ action = DELETE).
Proof.
  assert (Hno : forall x y : AgentAction, x <> SEARCH -> x <> DELETE ->
                  y = x -> ~ (y = SEARCH \/ y = DELETE))
    by (intros x y ? ? -> [|]; done).
  destruct action; cbn [execute_action action_name]; intros H.
  - apply execute_search_shape in H as (found & m & ->).
    split; [by vm_compute|]. split; [by eexists|]. split; [by eexists|].
    split; [by left|]. intros _. by eexists.
  - injection H as <- _.
    split; [by vm_compute|]. split; [by eexists|]. split; [by eexists|].
    split; [by intros [? [=]]|by intros [|]].
  - apply execute_delete_shape in H as (fd & vd & ->).
    split; [by vm_compute|]. split; [by eexists|]. split; [by eexists|].
    split; [by right|]. intros _. by eexists.
  - apply execute_update_shape in H as (ok & m & ->).
    split; [by vm_compute|]. split; [by eexists|]. split; [by eexists|].
    split; [by intros [? [=]]|by intros [|]].
  - injection H as <- _.
    split; [by vm_compute|]. split; [by eexists|]. split; [by eexists|].
    split; [by intros [? [=]]|by intros [|]].
Qed.

Lemma execute_action_result_shape_witness :
  exists result w',
    execute_action ascii_builtins (sample_interface false true true PyNone)
      DELETE [(u "image_id", PyInt 7)]
      (world_of fresh_service N.of_nat Z.of_nat) = (inr result, w')
    /\ dict_get result (u "action") = Some (PyStr (u "delete")).
Proof.
  destruct (execute_action ascii_builtins
              (sample_interface false true true PyNone)
              DELETE [(u "image_id", PyInt 7)]
              (world_of fresh_service N.of_nat Z.of_nat))
    as [[e|result] w'] eqn:E.
  - vm_compute in E. discriminate.
  - exists result, w'. split; [reflexivity|].
    exact (proj1 (execute_action_result_shape _ _ _ _ _ _ _ E)).
Defined.

(** X13.  The [/execute] route on a delete whose two calls return.  The
    status is [SUCCESS] exactly when the file was deleted; the message and
    the two outcomes are those of the handler.  The one suggestion, which
    says that the related data was cleaned up, is given whenever the file was
    deleted, also when the vector entry was not; no suggestion is given
    otherwise. *)
Theorem execute_route_delete (bi : Builtins) (self : AgentInterface)
    (params : pydict) (ctx : option pydict) (w : World) (image_id : pyvalue)
    (file_deleted vector_deleted : bool) :
  dict_get params (u "image_id") = Some image_id ->
  truthy image_id = true ->
  delete_image (storage_service self) image_id = inr file_deleted ->
  (if vector_is_initialized (vector_db_service self)
   then vector_delete (vector_db_service self) image_id = inr vector_deleted
   else vector_deleted = false) ->
  fst (execute_agent_action bi self
         {| AgentRequest.action := DELETE; AgentRequest.parameters := params;
            AgentRequest.context := ctx |} w)
  = inr {| AgentResponse.status := if file_deleted then SUCCESS else ERROR;
           AgentResponse.message :=
             PyStr (if file_deleted then u "图片已删除" else u "图片不存在");
           AgentResponse.action := DELETE;
           AgentResponse.result :=
             PyDict [(u "file_deleted", PyBool file_deleted);
                     (u "vector_deleted", PyBool vector_deleted)];
           AgentResponse.suggestions :=
             if file_deleted then [u "删除操作已完成，相关数据已清理"]
             else [] |}.
Proof.
  intros Hid Ht Hfile Hvec.
  unfold execute_agent_action, execute_action, _execute_delete.
  cbn [AgentRequest.action AgentRequest.parameters].
  rewrite (dict_get_default_Some _ _ _ _ Hid), Ht. cbn [negb].
  cbv [mbind M_bind invoke lift mret M_ret]. rewrite Hfile.
  destruct (vector_is_initialized (vector_db_service self)).
  - rewrite Hvec. by destruct file_deleted; vm_compute.
  - subst vector_deleted. by destruct file_deleted; vm_compute.
Qed.

Lemma execute_route_delete_witness :
  fst (execute_agent_action ascii_builtins
         (sample_interface true false true PyNone)
         {| AgentRequest.action := DELETE;
            AgentRequest.parameters := [(u "image_id", PyStr (u "img_abc123"))];
            AgentRequest.context := None |}
         (world_of fresh_service N.of_nat Z.of_nat))
  = inr {| AgentResponse.status := SUCCESS;
           AgentResponse.message := PyStr (u "图片已删除");
           AgentResponse.action := DELETE;
           AgentResponse.result :=
             PyDict [(u "file_deleted", PyBool true);
                     (u "vector_deleted", PyBool false)];
           AgentResponse.suggestions :=
             [u "删除操作已完成，相关数据已清理"] |}.
Proof.
  exact (execute_route_delete ascii_builtins
           (sample_interface true false true PyNone)
           [(u "image_id", PyStr (u "img_abc123"))] None
           (world_of fresh_service N.of_nat Z.of_nat)
           (PyStr (u "img_abc123")) true false
           eq_refl eq_refl eq_refl eq_refl).
Defined.

(** X14.  The [/execute] route on a search whose answer is a dict with an
    integer total [t]: the status is [SUCCESS], the message quotes [t], the
    result is the answer of the search service, and there are two
    suggestions for [t = 0], two for [t > 10] and none otherwise. *)
Theorem execute_route_search (bi : Builtins) (self : AgentInterface)
    (params : pydict) (ctx : option pydict) (w : World) (r : pydict) (t : Z) :
  search_is_initialized (search_service self) = true ->
  search (search_service self)
    (dict_get_default params (u "query_text") PyNone)
    (dict_get_default params (u "query_image_id") PyNone)
    (dict_get_default params (u "query_image_url") PyNone)
    (dict_get_default params (u "top_k") (PyInt 10))
    (dict_get_default params (u "filter_tags") PyNone) = inr (PyDict r) ->
  dict_get r (u "total") = Some (PyInt t) ->
  fst (execute_agent_action bi self
         {| AgentRequest.action := SEARCH; AgentRequest.parameters := params;
            AgentRequest.context := ctx |} w)
  = inr {| AgentResponse.status := SUCCESS;
           AgentResponse.message :=
             PyStr (u "找到 " ++ str_of_int t ++ u " 张相关图片");
           AgentResponse.action := SEARCH;
           AgentResponse.result := PyDict r;
           AgentResponse.suggestions :=
             if t =? 0 then
               [u "尝试使用不同的关键词搜索";
                u "检查是否有相关标签可以过滤"]
             else if 10 <? t then
               [u "可以添加更具体的描述来缩小搜索范围";
                u "尝试使用标签过滤来精确结果"]
             else [] |}.
Proof.
  intros Hready Hsearch Ht.
  unfold execute_agent_action, execute_action, _execute_search.
  cbn [AgentRequest.action AgentRequest.parameters].
  rewrite Hready. cbn [negb].
  cbv [mbind M_bind invoke lift mret M_ret]. rewrite Hsearch.
  unfold subscript. rewrite Ht. cbn [py_format].
  set (result := [(u "success", PyBool true); _; (u "result", PyDict r); _]).
  assert (Hs : dict_get_default result (u "success") PyNone = PyBool true)
    by (by vm_compute).
  assert (Hr : dict_get_default result (u "result") PyNone = PyDict r)
    by (by vm_compute).
  assert (Hr' : dict_get_default result (u "result") (PyDict []) = PyDict r)
    by (by vm_compute).
  assert (Hm : dict_get_default result (u "message") (PyStr []) =
               PyStr (u "找到 " ++ str_of_int t ++ u " 张相关图片"))
    by (by vm_compute).
  unfold _generate_suggestions. rewrite Hs, Hr, Hr', Hm.
  rewrite (dict_get_default_Some _ _ _ _ Ht).
  cbn [truthy py_eq_int py_gt_int fst].
  destruct (t =? 0); [done|]. by destruct (10 <? t).
Qed.

Lemma execute_route_search_witness :
  AgentResponse.suggestions
    match fst (execute_agent_action ascii_builtins
                 (sample_interface true true true
                    (PyDict [(u "total", PyInt 12)]))
                 {| AgentRequest.action := SEARCH;
                    AgentRequest.parameters := [];
                    AgentRequest.context := None |}
                 (world_of fresh_service N.of_nat Z.of_nat)) with
    | inr resp => resp
    | inl _ => {| AgentResponse.status := ERROR;
                  AgentResponse.message := PyNone;
                  AgentResponse.action := SEARCH;
                  AgentResponse.result := PyNone;
                  AgentResponse.suggestions := [] |}
    end
  = [u "可以添加更具体的描述来缩小搜索范围";
     u "尝试使用标签过滤来精确结果"].
Proof.
  rewrite (execute_route_search ascii_builtins
             (sample_interface true true true (PyDict [(u "total", PyInt 12)]))
             [] None (world_of fresh_service N.of_nat Z.of_nat)
             [(u "total", PyInt 12)] 12 eq_refl eq_refl eq_refl).
  reflexivity.
Defined.

(** X15.  The [/execute] route never gives a suggestion with a failure: for
    every action, parameter map and collaborators, a response with status
    [ERROR] has an empty suggestion list, and the status is [SUCCESS] exactly
    when the handler's [success] is [True]. *)
Theorem execute_route_error_no_suggestion (bi : Builtins)
    (self : AgentInterface) (request : AgentRequest.t) (w w' : World)
    (resp : AgentResponse.t) :
  execute_agent_action bi self request w = (inr resp, w') ->
  (AgentResponse.status resp = ERROR -> AgentResponse.suggestions resp = [])
  /\ AgentResponse.action resp = AgentRequest.action request
  /\ exists result w1,
       execute_action bi self (AgentRequest.action request)
         (AgentRequest.parameters request) w = (inr result, w1)
       /\ (AgentResponse.status resp = SUCCESS
           <-> dict_get result (u "success") = Some (PyBool true)).
Proof.
  unfold execute_agent_action. cbv [mbind M_bind lift mret M_ret].
  destruct (execute_action bi self (AgentRequest.action request)
              (AgentRequest.parameters request) w) as [[e|result] w1] eqn:E;
    [done|].
  destruct (execute_action_shape_success _ _ _ _ _ _ _ E) as [b Hb].
  rewrite (dict_get_default_Some _ _ _ _ Hb). cbn [truthy].
  destruct (_generate_suggestions (AgentRequest.action request) result)
    as [e|sugg] eqn:Es; [done|].
  intros [= <- <-].
  cbn [AgentResponse.status AgentResponse.suggestions AgentResponse.action].
  split; [|split; [done|exists result, w1; split; [done|]]].
  - destruct b; [done|]. intros _.
    rewrite direct_suggestions_unsuccessful in Es; [by injection Es as <-|].
    by rewrite (dict_get_default_Some _ _ _ _ Hb).
  - rewrite Hb. by destruct b; split.
Qed.

Lemma execute_route_error_no_suggestion_witness :
  exists resp w',
    execute_agent_action ascii_builtins
      (sample_interface true true false PyNone)
      {| AgentRequest.action := UPDATE;
         AgentRequest.parameters :=
           [(u "image_id", PyStr (u "img_abc123")); (u "tags", PyList [])];
         AgentRequest.context := None |}
      (world_of fresh_service N.of_nat Z.of_nat) = (inr resp, w')
    /\ AgentResponse.suggestions resp = [].
Proof.
  destruct (execute_agent_action ascii_builtins
              (sample_interface true true false PyNone)
              {| AgentRequest.action := UPDATE;
                 AgentRequest.parameters :=
                   [(u "image_id", PyStr (u "img_abc123"));
                    (u "tags", PyList [])];
                 AgentRequest.context := None |}
              (world_of fresh_service N.of_nat Z.of_nat))
    as [[e|resp] w'] eqn:E.
  - vm_compute in E. discriminate.
  - exists resp, w'. split; [reflexivity|].
    destruct (execute_route_error_no_suggestion _ _ _ _ _ _ E) as [H _].
    apply H. vm_compute in E. by injection E as <- _.
Defined.

(** * Further properties of the chat route *)

Lemma bind_run {A B} (m : M A) (k : A -> M B) (w w' : World) (a : A) :
  m w = (inr a, w') -> (m ≫= k) w = k a w'.
Proof. intros E. cbv [mbind M_bind]. by rewrite E. Qed.

Lemma init_stage_run (w : World) :
  exists w0,
    (if negb (is_initialized (agent w))
     then on_agent (fun a => (initialize a, tt)) else mret tt) w = (inr tt, w0)
    /\ agent w0 = initialize (agent w)
    /\ calls w0 = calls w /\ uuid_source w0 = uuid_source w
    /\ uuid_drawn w0 = uuid_drawn w /\ clock w0 = clock w
    /\ clock_read w0 = clock_read w.
Proof.
  destruct (is_initialized (agent w)) eqn:E; cbn [negb].
  - exists w. split; [done|]. unfold initialize, is_initialized in *.
    by rewrite E.
  - eexists. split; [reflexivity|]. done.
Qed.

Lemma create_session_run (uid : option pystr) (w : World) :
  exists w1,
    svc_create_session uid w = (inr (uuid_str (uuid_source w (uuid_drawn w))), w1)
    /\ agent w1 = fst (create_session (agent w) uid
                         (uuid_source w (uuid_drawn w))
                         (clock w (clock_read w)))
    /\ calls w1 = calls w /\ uuid_source w1 = uuid_source w
    /\ uuid_drawn w1 = S (uuid_drawn w) /\ clock w1 = clock w
    /\ clock_read w1 = S (clock_read w).
Proof. eexists. split; [reflexivity|]. done. Qed.

Lemma svc_optimize_query_clock (q : pystr) (sid : pystr) (w : World) :
  clock_read (snd (svc_optimize_query q (Some sid) w)) =
    match sid with
    | [] => clock_read w
    | _ => match get_session (agent w) sid with
           | Some _ => S (clock_read w)
           | None => clock_read w
           end
    end.
Proof.
  unfold svc_optimize_query. destruct sid as [|c s]; [done|].
  cbv [mbind M_bind read_agent datetime_now on_agent].
  by destruct (get_session (agent w) (c :: s)).
Qed.

Lemma initialize_sessions (a : AgentService) (sid : pystr) :
  get_session (initialize a) sid = get_session a sid.
Proof. unfold initialize. by destruct (_initialized a). Qed.

Lemma initialize_flag (a : AgentService) : _initialized (initialize a) = true.
Proof. unfold initialize. by destruct (_initialized a) eqn:E. Qed.

(** The two steps of [agent_chat] that settle the session: the id of the
    message is kept when it is not empty and resolves; otherwise a session is
    created, and its id is the one that goes on. *)
Lemma resolve_session_run {B} (msg_sid : option pystr) (k : pystr -> M B)
    (w : World) :
  let n := uuid_source w (uuid_drawn w) in
  let t := clock w (clock_read w) in
  let stage :=
    (session_id ← match msg_sid with
                  | Some ((_ :: _) as sid) => mret sid
                  | _ => svc_create_session None
                  end;
     session ← read_agent (fun a => get_session a session_id);
     session_id ← match session with
                  | Some _ => mret session_id
                  | None => svc_create_session None
                  end;
     k session_id) in
  (exists sid x, msg_sid = Some sid /\ sid <> []
     /\ get_session (agent w) sid = Some x
     /\ stage w = k sid w)
  \/ ((forall s, msg_sid = Some s -> s <> [] -> get_session (agent w) s = None)
      /\ exists w1,
           stage w = k (uuid_str n) w1
           /\ agent w1 = fst (create_session (agent w) None n t)
           /\ calls w1 = calls w /\ uuid_source w1 = uuid_source w
           /\ uuid_drawn w1 = S (uuid_drawn w) /\ clock w1 = clock w
           /\ clock_read w1 = S (clock_read w)).
Proof.
  intros n t stage. subst stage.
  destruct (create_session_run None w)
    as (w1 & E & Ha & Hc & Hus & Hud & Hk & Hr).
  assert (Hfound : get_session (agent w1) (uuid_str n) =
            Some {| user_id := None; created_at := t;
                    history := []; context := [] |}).
  { rewrite Ha. apply create_session_same_uuid. }
  assert (Hnew :
            (session_id ← svc_create_session None;
             session ← read_agent (fun a => get_session a session_id);
             session_id ← match session with
                          | Some _ => mret session_id
                          | None => svc_create_session None
                          end;
             k session_id) w = k (uuid_str n) w1).
  { rewrite (bind_run _ _ _ _ _ E).
    rewrite (bind_run _ _ w1 w1 (get_session (agent w1) (uuid_str n)))
      by reflexivity.
    rewrite Hfound. by rewrite (bind_run _ _ w1 w1 (uuid_str n)). }
  destruct msg_sid as [[|c s]|].
  - right. split; [by intros ? [= <-]|]. exists w1. by rewrite Hnew.
  - rewrite (bind_run _ _ w w (c :: s)) by reflexivity.
    rewrite (bind_run _ _ w w (get_session (agent w) (c :: s)))
      by reflexivity.
    destruct (get_session (agent w) (c :: s)) as [x|] eqn:Ex.
    + left. exists (c :: s), x. repeat (split; [done|]).
      by rewrite (bind_run _ _ w w (c :: s)).
    + right. split; [by intros ? [= <-] _|]. exists w1.
      by rewrite (bind_run _ _ _ _ _ E).
  - right. split; [done|]. exists w1. by rewrite Hnew.
Qed.

Lemma optimize_stage_run (q sid : pystr) (w : World) :
  sid <> [] -> is_Some (get_session (agent w) sid) ->
  exists w1,
    svc_optimize_query q (Some sid) w = (inr q, w1)
    /\ agent w1 = fst (optimize_query (agent w) q (Some sid)
                         (clock w (clock_read w)))
    /\ calls w1 = calls w /\ uuid_source w1 = uuid_source w
    /\ uuid_drawn w1 = uuid_drawn w /\ clock w1 = clock w
    /\ clock_read w1 = S (clock_read w).
Proof.
  intros Hne [x Hx].
  destruct (svc_optimize_query_run q (Some sid) w)
    as (w1 & E & Ha & Hc & Hus & Hud & Hk).
  exists w1. repeat (split; [done|]).
  pose proof (svc_optimize_query_clock q sid w) as Hr.
  rewrite E, Hx in Hr. by destruct sid.
Qed.

(** The steps of [agent_chat] before the tool call: the service is
    initialised; the session of the message is used when its id is not empty
    and resolves, otherwise one is created; the query is recorded in that
    session. *)
Lemma agent_chat_opening (bi : Builtins) (search_svc : SearchService)
    (message : ChatMessage.t) (w : World) :
  exists sid w1,
    agent_chat bi search_svc message w = chat_tail bi search_svc message sid w1
    /\ calls w1 = calls w /\ uuid_source w1 = uuid_source w
    /\ clock w1 = clock w
    /\ ((exists x, ChatMessage.session_id message = Some sid /\ sid <> []
           /\ get_session (agent w) sid = Some x
           /\ agent w1 = fst (optimize_query (initialize (agent w))
                                (ChatMessage.query message) (Some sid)
                                (clock w (clock_read w)))
           /\ uuid_drawn w1 = uuid_drawn w
           /\ clock_read w1 = S (clock_read w))
        \/ ((forall s, ChatMessage.session_id message = Some s -> s <> [] ->
               get_session (agent w) s = None)
            /\ sid = uuid_str (uuid_source w (uuid_drawn w))
            /\ agent w1 =
                 fst (optimize_query
                        (fst (create_session (initialize (agent w)) None
                                (uuid_source w (uuid_drawn w))
                                (clock w (clock_read w))))
                        (ChatMessage.query message) (Some sid)
                        (clock w (S (clock_read w))))
            /\ uuid_drawn w1 = S (uuid_drawn w)
            /\ clock_read w1 = S (S (clock_read w)))).
Proof.
  unfold agent_chat.
  rewrite (bind_run _ _ w w (is_initialized (agent w))) by reflexivity.
  destruct (init_stage_run w)
    as (w0 & E0 & Ha0 & Hc0 & Hus0 & Hud0 & Hk0 & Hr0).
  rewrite (bind_run _ _ _ _ _ E0).
  match goal with
  | |- context [mbind (fun _ => mbind (fun _ => mbind ?K _) _) _ w0] =>
      destruct (resolve_session_run (ChatMessage.session_id message) K w0)
        as [(sid & x & Es & Hne & Hx & ->)
           |(Hmiss & w1 & -> & Ha1 & Hc1 & Hus1 & Hud1 & Hk1 & Hr1)]
  end; cbv beta zeta.
  - destruct (optimize_stage_run (ChatMessage.query message) sid w0 Hne)
      as (w2 & E & Ha2 & Hc2 & Hus2 & Hud2 & Hk2 & Hr2); [by eexists|].
    rewrite (bind_run _ _ _ _ _ E). exists sid, w2.
    split; [reflexivity|]. repeat (split; [congruence|]).
    left. exists x. rewrite Ha0, initialize_sessions in Hx.
    repeat (split; [done|]). rewrite Ha2, Ha0, Hk0, Hr0.
    repeat split; congruence.
  - destruct (optimize_stage_run (ChatMessage.query message)
                (uuid_str (uuid_source w0 (uuid_drawn w0))) w1
                (uuid_str_nonempty _))
      as (w2 & E & Ha2 & Hc2 & Hus2 & Hud2 & Hk2 & Hr2).
    { rewrite Ha1, create_session_same_uuid. by eexists. }
    rewrite (bind_run _ _ _ _ _ E).
    exists (uuid_str (uuid_source w0 (uuid_drawn w0))), w2.
    split; [reflexivity|]. repeat (split; [congruence|]).
    right. split.
    { intros s Hs Hne. rewrite <- (initialize_sessions (agent w)), <- Ha0.
      by apply Hmiss. }
    rewrite Ha2, Ha1, Hk1, Hr1, Ha0, Hus0, Hud0, Hk0, Hr0.
    repeat split; congruence.
Qed.

(** The steps of [agent_chat] from the tool call on leave the service and the
    UUID source alone, and a response carries the session id, the query and
    the intent they were given. *)
Lemma chat_tail_keeps (bi : Builtins) (search_svc : SearchService)
    (message : ChatMessage.t) (sid : pystr) (w : World) :
  agent (snd (chat_tail bi search_svc message sid w)) = agent w
  /\ uuid_drawn (snd (chat_tail bi search_svc message sid w)) = uuid_drawn w
  /\ (forall resp, fst (chat_tail bi search_svc message sid w) = inr resp ->
        ChatResponse.session_id resp = sid
        /\ ChatResponse.optimized_query resp = ChatMessage.query message
        /\ ChatResponse.intent resp =
             intent (detect_intent bi (ChatMessage.query message))).
Proof.
  unfold chat_tail. cbv zeta.
  set (i := intent (detect_intent bi (ChatMessage.query message))).
  assert (Hmsg : forall (m : pystr) (w0 : World),
            let r := (suggestions ← lift (generate_suggestions i
                                            (PyDict [(u "message", PyStr m)]));
                      now ← datetime_now;
                      mret {| ChatResponse.session_id := sid;
                              ChatResponse.answer :=
                                generate_response bi i
                                  (PyDict [(u "message", PyStr m)])
                                  (ChatMessage.query message);
                              ChatResponse.intent := i;
                              ChatResponse.optimized_query :=
                                ChatMessage.query message;
                              ChatResponse.results :=
                                Some [(u "message", PyStr m)];
                              ChatResponse.suggestions := suggestions;
                              ChatResponse.timestamp := isoformat bi now |})
                       w0 in
            agent (snd r) = agent w0 /\ uuid_drawn (snd r) = uuid_drawn w0
            /\ (forall resp, fst r = inr resp ->
                  ChatResponse.session_id resp = sid
                  /\ ChatResponse.optimized_query resp
                     = ChatMessage.query message
                  /\ ChatResponse.intent resp = i)).
  { intros m w0. cbv [mbind M_bind lift datetime_now mret M_ret].
    destruct (generate_suggestions i _) as [e|sugg]; cbn [fst snd agent uuid_drawn].
    - by repeat split.
    - repeat split; by injection H as <-. }
  unfold chat_results.
  destruct (decide (i = u "search")) as [Hi|Hi].
  - destruct (search_is_initialized search_svc); cbn [negb].
    + cbv [mbind M_bind invoke lift datetime_now mret M_ret].
      destruct (search_by_text _ _ _ _) as [e|images];
        cbn [fst snd agent uuid_drawn]; [by repeat split|].
      destruct (generate_suggestions i _) as [e|sugg];
        cbn [fst snd agent uuid_drawn].
      * by repeat split.
      * repeat split; by injection H as <-.
    + by repeat split.
  - destruct (decide (i = u "delete")); [apply (Hmsg _ w)|].
    destruct (decide (i = u "upload")); [apply (Hmsg _ w)|].
    destruct (decide (i = u "analyze")); apply (Hmsg _ w).
Qed.

(** What a chat turn leaves behind when it had to create its session. *)
Lemma chat_created_session (bi : Builtins) (search_svc : SearchService)
    (message : ChatMessage.t) (w : World) :
  (forall s, ChatMessage.session_id message = Some s -> s <> [] ->
     get_session (agent w) s = None) ->
  let n := uuid_source w (uuid_drawn w) in
  let q := ChatMessage.query message in
  let wf := snd (agent_chat bi search_svc message w) in
  get_session (agent wf) (uuid_str n) =
    Some {| user_id := None; created_at := clock w (clock_read w);
            history := [optimize_event q (clock w (S (clock_read w)))];
            context := [] |}
  /\ (forall sid', sid' <> uuid_str n ->
        get_session (agent wf) sid' = get_session (agent w) sid')
  /\ is_initialized (agent wf) = true
  /\ uuid_drawn wf = S (uuid_drawn w)
  /\ (forall resp, fst (agent_chat bi search_svc message w) = inr resp ->
        ChatResponse.session_id resp = uuid_str n).
Proof.
  intros Hmiss n q wf. subst wf.
  destruct (agent_chat_opening bi search_svc message w)
    as (sid & w1 & -> & Hc & Hus & Hk
        & [(x & Es & Hne & Hx & _)|(_ & -> & Ha & Hud & Hr)]).
  { by rewrite (Hmiss sid Es Hne) in Hx. }
  destruct (chat_tail_keeps bi search_svc message
              (uuid_str (uuid_source w (uuid_drawn w))) w1)
    as (-> & -> & Hresp).
  fold n q in Ha |- *. rewrite Ha.
  assert (Hhit := optimize_query_hit
            (fst (create_session (initialize (agent w)) None n
                    (clock w (clock_read w))))
            q (uuid_str n) (clock w (S (clock_read w))) _
            (uuid_str_nonempty n) (create_session_same_uuid _ _ _ _)).
  refine (conj _ (conj _ (conj _ (conj Hud _)))).
  - rewrite Hhit. by rewrite decide_True.
  - intros sid' Hne. rewrite Hhit, decide_False by done.
    rewrite get_session_create, decide_False by done.
    apply initialize_sessions.
  - unfold is_initialized. rewrite optimize_query_flag. cbn.
    apply initialize_flag.
  - intros resp Hr'. by destruct (Hresp resp Hr').
Qed.

(** X16.  A chat turn without a session id (none, or the empty string)
    creates exactly one session, whether the turn then returns or raises.
    Its id is the string of the one UUID drawn, it is created at the first
    clock reading of the turn, and its history is the single event recording
    the query.  Every other id resolves as before, the service is
    initialised, and a response carries the new id. *)
Theorem chat_without_session_id (bi : Builtins) (search_svc : SearchService)
    (message : ChatMessage.t) (w : World) :
  ChatMessage.session_id message = None
    \/ ChatMessage.session_id message = Some [] ->
  let n := uuid_source w (uuid_drawn w) in
  let q := ChatMessage.query message in
  let wf := snd (agent_chat bi search_svc message w) in
  get_session (agent wf) (uuid_str n) =
    Some {| user_id := None; created_at := clock w (clock_read w);
            history := [optimize_event q (clock w (S (clock_read w)))];
            context := [] |}
  /\ (forall sid', sid' <> uuid_str n ->
        get_session (agent wf) sid' = get_session (agent w) sid')
  /\ is_initialized (agent wf) = true
  /\ uuid_drawn wf = S (uuid_drawn w)
  /\ (forall resp, fst (agent_chat bi search_svc message w) = inr resp ->
        ChatResponse.session_id resp = uuid_str n).
Proof.
  intros Hsid. apply chat_created_session.
  intros s Hs Hne. destruct Hsid as [E|E]; rewrite E in Hs; [done|].
  by injection Hs as <-.
Qed.

Lemma chat_without_session_id_witness :
  let message := {| ChatMessage.query := u "这是什么";
                    ChatMessage.session_id := None;
                    ChatMessage.top_k := 10;
                    ChatMessage.score_threshold := None |} in
  let w := world_of fresh_service (fun i => N.of_nat (i + 7))
             (fun i => Z.of_nat i * 1000) in
  get_session (agent (snd (agent_chat ascii_builtins offline_search message w)))
    (uuid_str 7)
  = Some {| user_id := None; created_at := 0;
            history := [optimize_event (u "这是什么") 1000];
            context := [] |}.
Proof.
  intros message w.
  destruct (chat_without_session_id ascii_builtins offline_search message w)
    as [H _]; [by left|].
  exact H.
Defined.

(** X17.  A chat turn on the id of an existing session draws no UUID and
    creates nothing, whether it then returns or raises: that session's
    history grows by the one event recording the query at the first clock
    reading, its user, creation time and context stay, every other id
    resolves as before, and a response carries the same id. *)
Theorem chat_with_known_session (bi : Builtins) (search_svc : SearchService)
    (message : ChatMessage.t) (w : World) (sid : pystr) (x : Session) :
  ChatMessage.session_id message = Some sid ->
  sid <> [] ->
  get_session (agent w) sid = Some x ->
  let q := ChatMessage.query message in
  let wf := snd (agent_chat bi search_svc message w) in
  get_session (agent wf) sid =
    Some {| user_id := user_id x; created_at := created_at x;
            history := history x ++ [optimize_event q (clock w (clock_read w))];
            context := context x |}
  /\ (forall sid', sid' <> sid ->
        get_session (agent wf) sid' = get_session (agent w) sid')
  /\ dom (_sessions (agent wf)) = dom (_sessions (agent w))
  /\ is_initialized (agent wf) = true
  /\ uuid_drawn wf = uuid_drawn w
  /\ (forall resp, fst (agent_chat bi search_svc message w) = inr resp ->
        ChatResponse.session_id resp = sid).
Proof.
  intros Es Hne Hx q wf. subst wf.
  destruct (agent_chat_opening bi search_svc message w)
    as (sid' & w1 & -> & Hc & Hus & Hk
        & [(x' & Es' & _ & _ & Ha & Hud & Hr)|(Hmiss & _)]).
  2: { by rewrite (Hmiss sid Es Hne) in Hx. }
  rewrite Es in Es'. injection Es' as <-.
  destruct (chat_tail_keeps bi search_svc message sid w1)
    as (-> & -> & Hresp).
  fold q in Ha. rewrite Ha.
  assert (Hx0 : get_session (initialize (agent w)) sid = Some x)
    by (by rewrite initialize_sessions).
  assert (Hhit := optimize_query_hit (initialize (agent w)) q sid
                    (clock w (clock_read w)) x Hne Hx0).
  refine (conj _ (conj _ (conj _ (conj _ (conj Hud _))))).
  - rewrite Hhit. by rewrite decide_True.
  - intros sid' Hne'. rewrite Hhit, decide_False by done.
    apply initialize_sessions.
  - apply set_eq. intros sid'. rewrite !elem_of_dom.
    change (is_Some (get_session
              (fst (optimize_query (initialize (agent w)) q (Some sid)
                      (clock w (clock_read w)))) sid')
            <-> is_Some (get_session (agent w) sid')).
    rewrite Hhit. case_decide as E.
    + subst sid'. rewrite Hx. split; by eexists.
    + by rewrite initialize_sessions.
  - unfold is_initialized. rewrite optimize_query_flag.
    apply initialize_flag.
  - intros resp Hr'. by destruct (Hresp resp Hr').
Qed.

Lemma chat_with_known_session_witness :
  let a := fst (create_session fresh_service (Some (u "ann")) 7 500) in
  let message := {| ChatMessage.query := u "这是什么";
                    ChatMessage.session_id := Some (uuid_str 7);
                    ChatMessage.top_k := 10;
                    ChatMessage.score_threshold := None |} in
  let w := world_of a N.of_nat (fun i => Z.of_nat i + 1000) in
  get_session (agent (snd (agent_chat ascii_builtins offline_search message w)))
    (uuid_str 7)
  = Some {| user_id := Some (u "ann"); created_at := 500;
            history := [optimize_event (u "这是什么") 1000];
            context := [] |}.
Proof.
  intros a message w.
  assert (Hx : get_session (agent w) (uuid_str 7) =
            Some {| user_id := Some (u "ann"); created_at := 500;
                    history := []; context := [] |})
    by apply create_session_same_uuid.
  destruct (chat_with_known_session ascii_builtins offline_search message w
              (uuid_str 7) _ eq_refl (uuid_str_nonempty 7) Hx) as [H _].
  exact H.
Defined.

(** X18.  A chat turn on an id that is not empty and does not resolve does
    not adopt that id: it creates a session under the string of a newly
    drawn UUID, records the query there and answers with the new id; the id
    that was asked for still resolves to nothing (unless it happens to be
    that very string). *)
Theorem chat_with_unknown_session (bi : Builtins) (search_svc : SearchService)
    (message : ChatMessage.t) (w : World) (sid : pystr) :
  ChatMessage.session_id message = Some sid ->
  sid <> [] ->
  get_session (agent w) sid = None ->
  let n := uuid_source w (uuid_drawn w) in
  let q := ChatMessage.query message in
  let wf := snd (agent_chat bi search_svc message w) in
  get_session (agent wf) (uuid_str n) =
    Some {| user_id := None; created_at := clock w (clock_read w);
            history := [optimize_event q (clock w (S (clock_read w)))];
            context := [] |}
  /\ (sid <> uuid_str n -> get_session (agent wf) sid = None)
  /\ uuid_drawn wf = S (uuid_drawn w)
  /\ (forall resp, fst (agent_chat bi search_svc message w) = inr resp ->
        ChatResponse.session_id resp = uuid_str n).
Proof.
  intros Es Hne Hx n q wf.
  destruct (chat_created_session bi search_svc message w)
    as (Hnew & Hother & _ & Hud & Hresp).
  { intros s Hs _. rewrite Es in Hs. by injection Hs as <-. }
  refine (conj Hnew (conj _ (conj Hud Hresp))).
  intros Hdiff. subst wf. by rewrite (Hother sid Hdiff).
Qed.

Lemma chat_with_unknown_session_witness :
  let message := {| ChatMessage.query := u "这是什么";
                    ChatMessage.session_id := Some (u "my-session");
                    ChatMessage.top_k := 10;
                    ChatMessage.score_threshold := None |} in
  let w := world_of fresh_service (fun i => N.of_nat (i + 7))
             (fun i => Z.of_nat i * 1000) in
  let wf := snd (agent_chat ascii_builtins offline_search message w) in
  get_session (agent wf) (u "my-session") = None
  /\ get_session (agent wf) (uuid_str 7) =
       Some {| user_id := None; created_at := 0;
               history := [optimize_event (u "这是什么") 1000];
               context := [] |}.
Proof.
  intros message w wf.
  destruct (chat_with_unknown_session ascii_builtins offline_search message w
              (u "my-session") eq_refl) as (Hnew & Hold & _).
  - by vm_compute.
  - apply lookup_empty.
  - split; [|exact Hnew]. apply Hold. by vm_compute.
Defined.


Lemma chat_tail_offline (bi : Builtins) (search_svc : SearchService)
    (message : ChatMessage.t) (sid : pystr) (w : World) :
  intent (detect_intent bi (ChatMessage.query message)) = u "search" ->
  search_is_initialized search_svc = false ->
  chat_tail bi search_svc message sid w =
    (inl (HTTPException 503 (u "搜索服务未初始化")), w).
Proof.
  intros Hi Hoff. unfold chat_tail, chat_results. cbv zeta.
  rewrite Hi, decide_True by done. by rewrite Hoff.
Qed.

(** X19.  A search turn that fails because the search service is not
    initialised has already done its bookkeeping: it raises
    [HTTPException] 503, yet the service is initialised and, for a turn
    without session id, the new session is in the store with the query
    recorded in its history.  The caller gets no response, hence not the id
    of that session. *)
Theorem chat_unavailable_keeps_session (bi : Builtins)
    (search_svc : SearchService) (message : ChatMessage.t) (w : World) :
  intent (detect_intent bi (ChatMessage.query message)) = u "search" ->
  search_is_initialized search_svc = false ->
  ChatMessage.session_id message = None ->
  let n := uuid_source w (uuid_drawn w) in
  let run := agent_chat bi search_svc message w in
  fst run = inl (HTTPException 503 (u "搜索服务未初始化"))
  /\ is_initialized (agent (snd run)) = true
  /\ get_session (agent (snd run)) (uuid_str n) =
       Some {| user_id := None; created_at := clock w (clock_read w);
               history := [optimize_event (ChatMessage.query message)
                             (clock w (S (clock_read w)))];
               context := [] |}
  /\ calls (snd run) = calls w.
Proof.
  intros Hi Hoff Hsid n run.
  destruct (chat_created_session bi search_svc message w)
    as (Hnew & _ & Hinit & _).
  { intros s Hs. by rewrite Hsid in Hs. }
  refine (conj _ (conj Hinit (conj Hnew _))); subst run;
    destruct (agent_chat_opening bi search_svc message w)
      as (sid & w1 & -> & Hc & _);
    by rewrite (chat_tail_offline _ _ _ _ _ Hi Hoff).
Qed.

Lemma chat_unavailable_keeps_session_witness :
  let message := {| ChatMessage.query := u "小狗";
                    ChatMessage.session_id := None;
                    ChatMessage.top_k := 10;
                    ChatMessage.score_threshold := None |} in
  let w := world_of fresh_service (fun i => N.of_nat (i + 7))
             (fun i => Z.of_nat i * 1000) in
  fst (agent_chat ascii_builtins offline_search message w)
    = inl (HTTPException 503 (u "搜索服务未初始化"))
  /\ get_session
       (agent (snd (agent_chat ascii_builtins offline_search message w)))
       (uuid_str 7)
     = Some {| user_id := None; created_at := 0;
               history := [optimize_event (u "小狗") 1000];
               context := [] |}.
Proof.
  intros message w.
  assert (Hi : intent (detect_intent ascii_builtins (ChatMessage.query message))
               = u "search") by (by vm_compute).
  destruct (chat_unavailable_keeps_session ascii_builtins offline_search
              message w Hi eq_refl eq_refl) as (H1 & _ & H2 & _).
  split; [exact H1|exact H2].
Defined.




(** X21.  A search turn that finds [k] images answers by that count: the
    apology for [k = 0], the singular sentence for [k = 1], the plural
    sentence with the decimal digits of [k] otherwise.  It always gives
    three suggestions, chosen by [k = 0], [k > 10] or neither, and its one
    call on a collaborator is the text search. *)
Theorem chat_search_answer (bi : Builtins) (search_svc : SearchService)
    (message : ChatMessage.t) (w : World) (images : list pyvalue) :
  intent (detect_intent bi (ChatMessage.query message)) = u "search" ->
  search_is_initialized search_svc = true ->
  search_by_text search_svc (ChatMessage.query message)
    (ChatMessage.top_k message) (ChatMessage.score_threshold message)
    = inr images ->
  let q := ChatMessage.query message in
  let k := Z.of_nat (length images) in
  exists resp wf,
    agent_chat bi search_svc message w = (inr resp, wf)
    /\ ChatResponse.answer resp =
         (if k =? 0 then
            u "抱歉，没有找到与「" ++ q
              ++ u "」相关的照片。可以尝试换个描述方式。"
          else if k =? 1 then u "找到 1 张符合「" ++ q ++ u "」的照片。"
          else u "为您找到了 " ++ str_of_int k ++ u " 张与「" ++ q
                 ++ u "」相关的照片。")
    /\ ChatResponse.suggestions resp =
         (if k =? 0 then
            [u "换个描述试试"; u "查看所有照片"; u "按日期筛选"]
          else if 10 <? k then
            [u "添加更多细节缩小范围"; u "按标签过滤"; u "查看相似图片"]
          else
            [u "查找相似的照片"; u "这些照片是什么时候拍的";
             u "给这些照片打标签"])
    /\ length (ChatResponse.suggestions resp) = 3%nat
    /\ calls wf =
         calls w ++ [CallSearchByText q (ChatMessage.top_k message)
                       (ChatMessage.score_threshold message)].
Proof.
  intros Hi Hready Hfound q k.
  destruct (agent_chat_opening bi search_svc message w)
    as (sid & w1 & -> & Hc & _).
  unfold chat_tail, chat_results. cbv zeta. rewrite Hi.
  rewrite decide_True by done. rewrite Hready. cbn [negb].
  cbv [mbind M_bind invoke]. rewrite Hfound.
  cbv [mret M_ret lift]. fold q k.
  set (results := [(u "total", PyInt k); (u "images", PyList images)]).
  assert (Ht : dict_get results (u "total") = Some (PyInt k))
    by apply dict_get_head.
  rewrite generate_suggestions_search_dict, generate_response_search_dict.
  rewrite !(dict_get_default_Some _ _ _ _ Ht).
  cbn [py_eq_int py_gt_int py_format].
  destruct (k =? 0) eqn:E0.
  - eexists _, _. split; [reflexivity|].
    cbn [ChatResponse.answer ChatResponse.suggestions calls length].
    by rewrite Hc.
  - destruct (10 <? k) eqn:E10.
    + eexists _, _. split; [reflexivity|].
      cbn [ChatResponse.answer ChatResponse.suggestions calls length].
      by rewrite Hc.
    + eexists _, _. split; [reflexivity|].
      cbn [ChatResponse.answer ChatResponse.suggestions calls length].
      by rewrite Hc.
Qed.

Lemma chat_search_answer_witness :
  exists resp wf,
    agent_chat ascii_builtins (sample_search [PyStr (u "a.jpg")])
      {| ChatMessage.query := u "小狗";
         ChatMessage.session_id := None;
         ChatMessage.top_k := 5;
         ChatMessage.score_threshold := None |}
      (world_of fresh_service N.of_nat Z.of_nat) = (inr resp, wf)
    /\ ChatResponse.answer resp = u "找到 1 张符合「小狗」的照片。".
Proof.
  edestruct (chat_search_answer ascii_builtins
               (sample_search [PyStr (u "a.jpg")])
               {| ChatMessage.query := u "小狗";
                  ChatMessage.session_id := None;
                  ChatMessage.top_k := 5;
                  ChatMessage.score_threshold := None |}
               (world_of fresh_service N.of_nat Z.of_nat)
               [PyStr (u "a.jpg")])
    as (resp & wf & E & Ha & _).
  - by vm_compute.
  - reflexivity.
  - reflexivity.
  - exists resp, wf. split; [exact E|]. etrans; [exact Ha|]. by vm_compute.
Defined.

(** * Further properties of the session routes *)

Lemma route_create_session_run (uid : option pystr) (w : World) :
  exists w1,
    Routes.create_session uid w =
      (inr [(u "status", PyStr (u "success"));
            (u "session_id", PyStr (uuid_str (uuid_source w (uuid_drawn w))));
            (u "message", PyStr (u "会话创建成功"))], w1)
    /\ agent w1 = fst (create_session (initialize (agent w)) uid
                         (uuid_source w (uuid_drawn w))
                         (clock w (clock_read w)))
    /\ calls w1 = calls w
    /\ uuid_drawn w1 = S (uuid_drawn w).
Proof.
  unfold Routes.create_session.
  rewrite (bind_run _ _ w w (is_initialized (agent w))) by reflexivity.
  destruct (init_stage_run w)
    as (w0 & E0 & Ha0 & Hc0 & Hus0 & Hud0 & Hk0 & Hr0).
  rewrite (bind_run _ _ _ _ _ E0).
  destruct (create_session_run uid w0)
    as (w1 & E1 & Ha1 & Hc1 & Hus1 & Hud1 & Hk1 & Hr1).
  rewrite (bind_run _ _ _ _ _ E1).
  exists w1. rewrite Ha1, Ha0, Hus0, Hud0, Hk0, Hr0.
  split; [reflexivity|]. repeat split; congruence.
Qed.

Lemma route_session_info_found (bi : Builtins) (sid : pystr) (w : World)
    (x : Session) :
  get_session (agent w) sid = Some x ->
  Routes.get_session_info bi sid w =
    (inr [(u "status", PyStr (u "success"));
          (u "session",
           PyDict
             [(u "session_id", PyStr sid);
              (u "user_id",
               match user_id x with Some v => PyStr v | None => PyNone end);
              (u "created_at", PyStr (isoformat bi (created_at x)));
              (u "history_count", PyInt (Z.of_nat (length (history x))));
              (u "context", PyDict (context x))])], w).
Proof.
  intros Hx. unfold Routes.get_session_info.
  rewrite (bind_run _ _ w w (get_session (agent w) sid)) by reflexivity.
  by rewrite Hx.
Qed.

(** X22.  Round trip through the session routes.  [/session/create] never
    raises, calls no collaborator, leaves the service initialised and
    returns the string of the UUID it drew; [/session/{id}] on that id then
    reports the user that was given ([None] when none was), the creation
    time, a history count of 0 and an empty context, and changes nothing. *)
Theorem session_routes_round_trip (bi : Builtins) (uid : option pystr)
    (w : World) :
  let n := uuid_source w (uuid_drawn w) in
  exists w1,
    Routes.create_session uid w =
      (inr [(u "status", PyStr (u "success"));
            (u "session_id", PyStr (uuid_str n));
            (u "message", PyStr (u "会话创建成功"))], w1)
    /\ calls w1 = calls w
    /\ is_initialized (agent w1) = true
    /\ Routes.get_session_info bi (uuid_str n) w1 =
         (inr [(u "status", PyStr (u "success"));
               (u "session",
                PyDict
                  [(u "session_id", PyStr (uuid_str n));
                   (u "user_id",
                    match uid with Some v => PyStr v | None => PyNone end);
                   (u "created_at",
                    PyStr (isoformat bi (clock w (clock_read w))));
                   (u "history_count", PyInt 0);
                   (u "context", PyDict [])])], w1).
Proof.
  intros n.
  destruct (route_create_session_run uid w) as (w1 & E & Ha & Hc & Hud).
  exists w1. split; [exact E|]. split; [exact Hc|]. split.
  - rewrite Ha. unfold is_initialized. cbn [create_session fst _initialized].
    apply initialize_flag.
  - apply (route_session_info_found bi (uuid_str n) w1
             {| user_id := uid; created_at := clock w (clock_read w);
                history := []; context := [] |}).
    rewrite Ha. apply create_session_same_uuid.
Qed.

(** X23.  [/session/{id}] on an id that names no session raises
    [HTTPException] 404 with a detail that ends in the id, and in every case
    the route leaves the world as it was: looking a session up never creates
    or changes one. *)
Theorem session_info_not_found (bi : Builtins) (sid : pystr) (w : World) :
  snd (Routes.get_session_info bi sid w) = w
  /\ (get_session (agent w) sid = None ->
       fst (Routes.get_session_info bi sid w) =
         inl (HTTPException 404 (u "会话不存在: " ++ sid)))
  /\ (is_Some (get_session (agent w) sid) ->
       exists info, fst (Routes.get_session_info bi sid w) = inr info).
Proof.
  unfold Routes.get_session_info.
  rewrite (bind_run _ _ w w (get_session (agent w) sid)) by reflexivity.
  destruct (get_session (agent w) sid) as [x|].
  - split; [done|]. split; [done|]. intros _. by eexists.
  - split; [done|]. split; [done|]. by intros [? [=]].
Qed.

Lemma session_info_not_found_witness :
  fst (Routes.get_session_info ascii_builtins (u "my-session")
         (world_of fresh_service N.of_nat Z.of_nat))
  = inl (HTTPException 404 (u "会话不存在: my-session")).
Proof.
  destruct (session_info_not_found ascii_builtins (u "my-session")
              (world_of fresh_service N.of_nat Z.of_nat)) as (_ & H & _).
  etrans; [apply H; apply lookup_empty|]. by vm_compute.
Defined.

Lemma chat_known_session_lookup (bi : Builtins) (search_svc : SearchService)
    (message : ChatMessage.t) (w : World) (sid : pystr) (x : Session) :
  ChatMessage.session_id message = Some sid ->
  sid <> [] ->
  get_session (agent w) sid = Some x ->
  get_session (agent (snd (agent_chat bi search_svc message w))) sid =
    Some (history_append
            (optimize_event (ChatMessage.query message)
               (clock w (clock_read w))) x).
Proof.
  intros Es Hne Hx.
  destruct (agent_chat_opening bi search_svc message w)
    as (sid' & w1 & -> & Hc & Hus & Hk
        & [(x' & Es' & _ & _ & Ha & Hud & Hr)|(Hmiss & _)]).
  2: { by rewrite (Hmiss sid Es Hne) in Hx. }
  rewrite Es in Es'. injection Es' as <-.
  destruct (chat_tail_keeps bi search_svc message sid w1) as (-> & _).
  rewrite Ha.
  assert (Hx0 : get_session (initialize (agent w)) sid = Some x)
    by (by rewrite initialize_sessions).
  rewrite (optimize_query_hit _ _ _ _ _ Hne Hx0). by rewrite decide_True.
Qed.

(** X24.  The history count that [/session/{id}] reports counts the chat
    turns made on the session: one chat turn on the id of an existing
    session, whatever its intent and whether it returned or raised, raises
    the reported count by exactly one and leaves the reported user, creation
    time and context as they were. *)
Theorem session_info_counts_turns (bi : Builtins) (search_svc : SearchService)
    (message : ChatMessage.t) (w : World) (sid : pystr) (x : Session) :
  ChatMessage.session_id message = Some sid ->
  sid <> [] ->
  get_session (agent w) sid = Some x ->
  let report (count : nat) : pydict :=
    [(u "status", PyStr (u "success"));
     (u "session",
      PyDict
        [(u "session_id", PyStr sid);
         (u "user_id",
          match user_id x with Some v => PyStr v | None => PyNone end);
         (u "created_at", PyStr (isoformat bi (created_at x)));
         (u "history_count", PyInt (Z.of_nat count));
         (u "context", PyDict (context x))])] in
  fst (Routes.get_session_info bi sid w) = inr (report (length (history x)))
  /\ fst (Routes.get_session_info bi sid
            (snd (agent_chat bi search_svc message w)))
     = inr (report (S (length (history x)))).
Proof.
  intros Es Hne Hx report. split.
  - by rewrite (route_session_info_found bi sid w x Hx).
  - rewrite (route_session_info_found bi sid _ _
               (chat_known_session_lookup bi search_svc message w sid x
                  Es Hne Hx)).
    cbn [fst history_append user_id created_at history context].
    subst report. cbv beta. rewrite length_app. cbn [length].
    by rewrite Nat.add_1_r.
Qed.

Lemma session_info_counts_turns_witness :
  let a := fst (create_session fresh_service (Some (u "ann")) 7 500) in
  let message := {| ChatMessage.query := u "这是什么";
                    ChatMessage.session_id := Some (uuid_str 7);
                    ChatMessage.top_k := 10;
                    ChatMessage.score_threshold := None |} in
  let w := world_of a N.of_nat (fun i => Z.of_nat i + 1000) in
  fst (Routes.get_session_info ascii_builtins (uuid_str 7)
         (snd (agent_chat ascii_builtins offline_search message w)))
  = inr [(u "status", PyStr (u "success"));
         (u "session",
          PyDict
            [(u "session_id", PyStr (uuid_str 7));
             (u "user_id", PyStr (u "ann"));
             (u "created_at", PyStr (u "500"));
             (u "history_count", PyInt 1);
             (u "context", PyDict [])])].
Proof.
  intros a message w.
  assert (Hx : get_session (agent w) (uuid_str 7) =
            Some {| user_id := Some (u "ann"); created_at := 500;
                    history := []; context := [] |})
    by apply create_session_same_uuid.
  destruct (session_info_counts_turns ascii_builtins offline_search message w
              (uuid_str 7) _ eq_refl (uuid_str_nonempty 7) Hx) as [_ H].
  etrans; [exact H|]. by vm_compute.
Defined.

(** * Further properties of the singleton and of the status report *)

(** X25.  [get_agent_service] constructs the service once.  The first call
    stores the object it constructs in the module global; every later call
    returns that object without running [__init__] again, so it leaves the
    runtime as it is and a session created in between still resolves. *)
Theorem get_agent_service_keeps_sessions (rt : Singleton.Runtime) :
  Singleton.glob_agent_service rt = None ->
  exists rt1 r1,
    Singleton.get_agent_service rt = (rt1, r1)
    /\ Singleton.glob_agent_service rt1 = Some r1
    /\ Singleton.cls_instance rt1 = Some r1
    /\ Singleton.get_agent_service rt1 = (rt1, r1)
    /\ forall uid n now,
         exists rt2,
           Singleton.call_method (fun o => create_session o uid n now) rt1 r1
             = Some (rt2, uuid_str n)
           /\ Singleton.get_agent_service rt2 = (rt2, r1)
           /\ Singleton.obj_get_session
                (fst (Singleton.get_agent_service rt2)) r1 (uuid_str n)
              = Some {| user_id := uid; created_at := now;
                        history := []; context := [] |}.
Proof.
  intros Hg. unfold Singleton.get_agent_service at 1. rewrite Hg.
  destruct (Singleton.construct rt) as [rt0 r1] eqn:Ec.
  pose proof (construct_instance _ _ _ Ec) as Hi.
  assert (Hheap : exists o, Singleton.heap rt0 !! r1 = Some (Some o)).
  { unfold Singleton.construct in Ec.
    destruct (Singleton.AgentService_new rt) as [rt' r'].
    injection Ec as <- <-. eexists. apply init_attributes. }
  destruct Hheap as [o Ho].
  eexists _, r1. split; [reflexivity|].
  cbn [Singleton.glob_agent_service Singleton.cls_instance].
  split; [done|]. split; [done|]. split; [done|].
  intros uid n now. unfold Singleton.call_method.
  cbn [Singleton.heap]. rewrite Ho.
  eexists. split; [reflexivity|]. split; [done|].
  unfold Singleton.get_agent_service, Singleton.obj_get_session.
  cbn [Singleton.glob_agent_service fst Singleton.heap].
  rewrite lookup_insert_eq. unfold get_session. cbn [_sessions].
  apply lookup_insert_eq.
Qed.

Lemma get_agent_service_keeps_sessions_witness :
  exists rt1 r1,
    Singleton.get_agent_service Singleton.boot = (rt1, r1)
    /\ Singleton.get_agent_service rt1 = (rt1, r1).
Proof.
  destruct (get_agent_service_keeps_sessions Singleton.boot eq_refl)
    as (rt1 & r1 & E & _ & _ & E1 & _).
  by exists rt1, r1.
Defined.

(** X26.  [get_system_status] asks a collaborator for its count only behind
    that collaborator's [is_initialized] guard.  With storage and vector
    index both uninitialised it reports the four flags and two zero counts
    whatever the statistics calls would answer, an exception included.  With
    storage initialised an exception of [get_storage_stats] is passed on, an
    answer without [total_images] raises [KeyError], and otherwise the
    reported counts are that entry and the answer of [count]. *)
Theorem system_status_guards (self : AgentInterface) (probe : StatusProbe) :
  let flags :=
    [(u "embedding_service", PyBool (embedding_is_initialized probe));
     (u "search_service",
      PyBool (search_is_initialized (search_service self)));
     (u "storage_service",
      PyBool (storage_is_initialized (storage_service self)));
     (u "vector_db_service",
      PyBool (vector_is_initialized (vector_db_service self)))] in
  (storage_is_initialized (storage_service self) = false ->
   vector_is_initialized (vector_db_service self) = false ->
     get_system_status self probe =
       inr (flags ++ [(u "total_images", PyInt 0);
                      (u "total_vectors", PyInt 0)]))
  /\ (storage_is_initialized (storage_service self) = true ->
      (forall e, get_storage_stats probe = inl e ->
         get_system_status self probe = inl e)
      /\ (forall d, get_storage_stats probe = inr (PyDict d) ->
            dict_get d (u "total_images") = None ->
            get_system_status self probe = inl (KeyError (u "total_images")))
      /\ (forall d v c, get_storage_stats probe = inr (PyDict d) ->
            dict_get d (u "total_images") = Some v ->
            vector_is_initialized (vector_db_service self) = true ->
            vector_count probe = inr c ->
            get_system_status self probe =
              inr (flags ++ [(u "total_images", v);
                             (u "total_vectors", c)]))).
Proof.
  intros flags. subst flags. unfold get_system_status. split.
  - intros Hs Hv. by rewrite Hs, Hv.
  - intros Hs. rewrite Hs. refine (conj _ (conj _ _)).
    + by intros e ->.
    + intros d -> Hd. unfold subscript. by rewrite Hd.
    + intros d v c -> Hd Hv Hc. unfold subscript.
      by rewrite Hd, Hv, Hc.
Qed.

Lemma system_status_guards_witness :
  get_system_status
    {| search_service := offline_search;
       storage_service :=
         {| storage_is_initialized := false;
            delete_image := fun _ => inr false |};
       vector_db_service :=
         {| vector_is_initialized := false;
            vector_delete := fun _ => inr false;
            update_metadata := fun _ _ => inr false |} |}
    {| embedding_is_initialized := true;
       get_storage_stats := inl (RuntimeError []);
       vector_count := inl (RuntimeError []) |}
  = inr [(u "embedding_service", PyBool true);
         (u "search_service", PyBool false);
         (u "storage_service", PyBool false);
         (u "vector_db_service", PyBool false);
         (u "total_images", PyInt 0);
         (u "total_vectors", PyInt 0)].
Proof.
  exact (proj1 (system_status_guards
                  {| search_service := offline_search;
                     storage_service :=
                       {| storage_is_initialized := false;
                          delete_image := fun _ => inr false |};
                     vector_db_service :=
                       {| vector_is_initialized := false;
                          vector_delete := fun _ => inr false;
                          update_metadata := fun _ _ => inr false |} |}
                  {| embedding_is_initialized := true;
                     get_storage_stats := inl (RuntimeError []);
                     vector_count := inl (RuntimeError []) |})
           eq_refl eq_refl).
Defined.
